(** * Fair-price estimation and investment scoring: a shallow embedding

    The Python sources embedded here are
    - [models/property.py]            (records [Property], [InvestmentScore]),
    - [services/scoring_service.py]   (module [ScoringService]),
    - [app.py]                        (the display score, module [App]),
    - [create_db.py]                  (module [CreateDb]),
    - [pca_workflow.py]               (module [PcaWorkflow]),
    - [services/prediction_service.py] (module [PredictionService]).

    Numbers.  Python [float] values are idealised as exact rationals ([Q]):
    rounding and NaN are outside the model, and results that the code
    computes are compared with [==] ([Qeq]).  [Optional[...]] attributes are
    [option] values, [None] standing for a missing attribute.  Python [int]
    attributes are [Z]. *)

From Stdlib Require Import QArith Qabs Qminmax ZArith Lia Lqa Ascii.
From stdpp Require Import base option list strings pretty gmap.

Open Scope Q_scope.

(** ** Python primitives *)

Module Py.

(** The exception classes that the embedded code can meet.  [OtherError]
    carries the class name of any exception not singled out here. *)
Inductive exn : Type :=
| TypeError
| ValueError
| KeyError
| OtherError (class_name : string).

(** Outcome of a call that may raise. *)
Inductive result (A : Type) : Type :=
| Ok (a : A)
| Raise (e : exn).
Arguments Ok {A} a.
Arguments Raise {A} e.

Definition bind {A B : Type} (m : result A) (k : A -> result B) : result B :=
  match m with
  | Ok a => k a
  | Raise e => Raise e
  end.

(** [try: body except Exception: handler] *)
Definition try_except {A : Type} (body : result A) (handler : exn -> result A)
  : result A :=
  match body with
  | Ok a => Ok a
  | Raise e => handler e
  end.

Definition returns {A : Type} (m : result A) : Prop := exists a, m = Ok a.

(** Truth value of a number: everything but zero is true. *)
Definition truthy (x : Q) : bool := negb (Qeq_bool x 0).

(** Truth value of an [Optional[int]]. *)
Definition truthy_int (o : option Z) : bool :=
  match o with
  | None => false
  | Some n => negb (n =? 0)%Z
  end.

(** [min(a, b)]: the first argument unless the second is smaller. *)
Definition min (a b : Q) : Q := if Qlt_le_dec b a then b else a.

(** [max(a, b)]: the first argument unless the second is larger. *)
Definition max (a b : Q) : Q := if Qlt_le_dec a b then b else a.

(** [abs(x)] *)
Definition abs (x : Q) : Q := Qabs x.

(** [sum(l)] *)
Definition sum (l : list Q) : Q := foldr Qplus 0 l.

(** [statistics.mean(l)].  Python raises [StatisticsError] on an empty
    list; every call site of the embedded code passes a non-empty list
    (a two-element literal, or a list tested with [if risk_factors]). *)
Definition mean (l : list Q) : Q := sum l / inject_Z (Z.of_nat (length l)).

End Py.

Notation "'let*' x ':=' m 'in' k" := (Py.bind m (fun x => k))
  (at level 10, x name, m at level 100, k at level 200).

(** ** models/property.py *)

Record Property : Type := mkProperty {
  property_id : Z;
  price : Q;
  fair_price : Q;
  property_type : string;
  living_area : Q;
  bedrooms : option Z;
  bathrooms : option Q;
  year_built : option Z;
  lot_size : option Q;
  latitude : Q;
  longitude : Q;
  zestimate : option Q;
  rent_estimate : option Q;
  tax_assessed_value : option Q;
  tax_rate : option Q;
  monthly_hoa : option Q;
  address : string;
  city : string;
  state : string;
  zipcode : string;
  county : option string
}.

Record InvestmentScore : Type := mkInvestmentScore {
  property : Property;
  total_score : Q;
  roi_score : Q;
  location_score : Q;
  condition_score : Q;
  market_score : Q;
  risk_score : Q
}.

(** ** services/scoring_service.py *)

Module ScoringService.

Definition calculate_roi_score (p : Property) : Q :=
  match rent_estimate p with
  | Some rent =>
      if negb (Py.truthy rent) || negb (Py.truthy (price p)) then 0
      else
        let annual_rent := rent * 12 in
        let gross_roi := (annual_rent / price p) * 100 in
        let operating_expenses := annual_rent * 0.4 in
        let net_roi := ((annual_rent - operating_expenses) / price p) * 100 in
        Py.min 10 net_roi
  | None => 0
  end.

Definition calculate_location_score (p : Property) : Q := 7.

Definition calculate_condition_score (p : Property) : Q :=
  match year_built p with
  | Some year =>
      if negb (Py.truthy_int (Some year)) then 5
      else
        let age := (2024 - year)%Z in
        let age_score := Py.max 0 (10 - inject_Z age / 10) in
        match zestimate p with
        | Some z =>
            if Py.truthy z && Py.truthy (price p) then
              let condition_factor := z / price p in
              let condition_score := 10 * Py.min 1.2 (Py.max 0.8 condition_factor) in
              Py.mean [age_score; condition_score]
            else age_score
        | None => age_score
        end
  | None => 5
  end.

Definition calculate_market_score (p : Property) : Q := 6.

(** The dictionary literal of [calculate_risk_score]. *)
Definition vacancy_risk_table : gmap string Q :=
  list_to_map
    [ ("Single Family"%string, 8);
      ("Multi Family"%string, 7);
      ("Apartment"%string, 6);
      ("Retail"%string, 5);
      ("Office"%string, 4);
      ("Industrial"%string, 6);
      ("Land"%string, 3) ].

(** [{...}.get(property.property_type, 5)] *)
Definition vacancy_risk (p : Property) : Q :=
  default 5 (vacancy_risk_table !! property_type p).

Definition market_risk : Q := 6.

(** The list [risk_factors] once the three appends have run. *)
Definition risk_factors (p : Property) : list Q :=
  let factors := [] in
  let factors :=
    match zestimate p with
    | Some z =>
        if Py.truthy z && Py.truthy (price p) then
          let price_diff := Py.abs (z - price p) / price p in
          let price_risk := 10 - price_diff * 100 in
          factors ++ [price_risk]
        else factors
    | None => factors
    end in
  let factors := factors ++ [vacancy_risk p] in
  factors ++ [market_risk].

Definition calculate_risk_score (p : Property) : Q :=
  match risk_factors p with
  | [] => 5
  | factors => Py.mean factors
  end.

Definition weight_roi : Q := 0.35.
Definition weight_location : Q := 0.25.
Definition weight_condition : Q := 0.15.
Definition weight_market : Q := 0.15.
Definition weight_risk : Q := 0.10.

Definition score_property (p : Property) : InvestmentScore :=
  let roi := calculate_roi_score p in
  let location := calculate_location_score p in
  let condition := calculate_condition_score p in
  let market := calculate_market_score p in
  let risk := calculate_risk_score p in
  let total :=
    (roi * weight_roi
     + location * weight_location
     + condition * weight_condition
     + market * weight_market
     + risk * weight_risk) * 10 in
  {| property := p;
     total_score := total;
     roi_score := roi;
     location_score := location;
     condition_score := condition;
     market_score := market;
     risk_score := risk |}.

Definition score_properties (properties : list Property) : list InvestmentScore :=
  map score_property properties.

End ScoringService.

(** ** app.py: the display score *)

Module App.

(** [property.rent_estimate * 12] and [property.zestimate - property.price]
    raise [TypeError] when the left operand is [None]. *)
Definition number (o : option Q) : Py.result Q :=
  match o with
  | Some x => Py.Ok x
  | None => Py.Raise Py.TypeError
  end.

Definition calculate_investment_score (p : Property) : Py.result Q :=
  let score := 0 in
  (* Cap rate score (0-4 points) *)
  let* score :=
    (if Qlt_le_dec 0 (price p) then
       let* rent := number (rent_estimate p) in
       let cap_rate := (rent * 12) / price p in
       Py.Ok (score + Py.min (cap_rate * 40) 4)
     else Py.Ok score) in
  (* Appreciation potential (0-3 points) *)
  let* score :=
    (if Qlt_le_dec 0 (price p) then
       let* z := number (zestimate p) in
       let appreciation := (z - price p) / price p in
       Py.Ok (score + Py.min (appreciation * 10) 3)
     else Py.Ok score) in
  (* Property age (0-2 points) *)
  let score :=
    match year_built p with
    | Some year =>
        if Py.truthy_int (Some year) then
          let age_score := Py.min (inject_Z (2023 - year) / 100) 1 in
          score + 2 * (1 - age_score)
        else score
    | None => score
    end in
  (* HOA consideration (0-1 point) *)
  let score :=
    match monthly_hoa p with
    | Some hoa =>
        if negb (Py.truthy hoa) || (if Qlt_le_dec hoa 200 then true else false)
        then score + 1 else score
    | None => score + 1
    end in
  Py.Ok score.

End App.

(** ** create_db.py *)

Module CreateDb.

(** The two cells of a CSV row that [calculate_fair_price] reads.  A
    [zestimate] for which [pd.notna] is false is [None]. *)
Record Row : Type := mkRow {
  row_price : Q;
  row_zestimate : option Q
}.

(** Both cells exist in every row, so the body cannot raise and the
    [except] branch, which returns [row['price']], is never taken. *)
Definition calculate_fair_price (row : Row) : Q :=
  let base_price := row_price row in
  match row_zestimate row with
  | Some z => (base_price + z) / 2
  | None => base_price
  end.

End CreateDb.

(** ** Data frames *)

Module Pandas.

Inductive dtype : Type :=
| int32 | float32 | int64 | float64 | object | category | other_dtype.

#[global] Instance dtype_eq_dec : EqDecision dtype.
Proof. solve_decision. Defined.

(** One value of a column; [NA] is a missing value. *)
Inductive cell : Type :=
| NA
| Num (x : Q)
| Str (s : string).

Record Series : Type := mkSeries {
  name : string;
  dtype_of : dtype;
  values : list cell
}.

(** A batch of property records.  The [price] column is kept apart: every
    batch has it, with a number in each row ([Property.price] is a plain
    [float]); [columns] are the other columns. *)
Record DataFrame : Type := mkDataFrame {
  price_values : list Q;
  columns : list Series
}.

(** [len(df)] *)
Definition len (df : DataFrame) : nat := length (price_values df).

(** [df.select_dtypes(include=...).columns.tolist()], [price] left out. *)
Definition select_dtypes (include : list dtype) (df : DataFrame) : list string :=
  name <$> filter (fun s => dtype_of s ∈ include) (columns df).

(** [df[col]] *)
Definition get_column (df : DataFrame) (col : string) : Py.result Series :=
  match List.find (fun s => String.eqb (name s) col) (columns df) with
  | Some s => Py.Ok s
  | None => Py.Raise Py.KeyError
  end.

Definition is_na (c : cell) : bool :=
  match c with NA => true | _ => false end.

(** [s.isnull().any()] *)
Definition isnull_any (s : Series) : bool := existsb is_na (values s).

Fixpoint replace_column (cols : list Series) (s : Series) : list Series :=
  match cols with
  | [] => [s]
  | c :: rest =>
      if String.eqb (name c) (name s) then s :: rest
      else c :: replace_column rest s
  end.

(** [df[col] = vals]: the array must have one value per row. *)
Definition set_column (df : DataFrame) (col : string) (dt : dtype)
    (vals : list cell) : Py.result DataFrame :=
  if decide (length vals = len df) then
    Py.Ok {| price_values := price_values df;
             columns := replace_column (columns df) (mkSeries col dt vals) |}
  else Py.Raise Py.ValueError.

(** The numbers of a column, skipping missing values; a string makes the
    arithmetic of [mean] fail. *)
Fixpoint numbers (l : list cell) : Py.result (list Q) :=
  match l with
  | [] => Py.Ok []
  | NA :: rest => numbers rest
  | Num x :: rest => let* xs := numbers rest in Py.Ok (x :: xs)
  | Str _ :: rest => Py.Raise Py.TypeError
  end.

(** [s.fillna(s.mean())]: a column without any number has no mean and
    keeps its missing values. *)
Definition fillna_mean (s : Series) : Py.result Series :=
  let* xs := numbers (values s) in
  match xs with
  | [] => Py.Ok s
  | _ =>
      let m := Py.mean xs in
      Py.Ok (mkSeries (name s) (dtype_of s)
               ((fun c => match c with NA => Num m | _ => c end) <$> values s))
  end.

(** [s.fillna(token)] *)
Definition fillna (token : string) (s : Series) : Series :=
  mkSeries (name s) (dtype_of s)
    ((fun c => match c with NA => Str token | _ => c end) <$> values s).

(** [s.astype(str)], given Python's [str] on floats. *)
Definition astype_str (str_of_float : Q -> string) (s : Series) : Series :=
  mkSeries (name s) object
    ((fun c => match c with
               | NA => Str "nan"
               | Num x => Str (str_of_float x)
               | Str t => Str t
               end) <$> values s).

End Pandas.

(** ** numpy and scikit-learn *)

Module Numpy.

(** [np.maximum(a, c)] with a scalar [c] *)
Definition maximum (a : list Q) (c : Q) : list Q :=
  (fun x => if Qlt_le_dec x c then c else x) <$> a.

(** [a * c] with a scalar [c] *)
Definition scale (a : list Q) (c : Q) : list Q := (fun x => x * c) <$> a.

(** [a * b], element by element *)
Definition multiply (a b : list Q) : list Q := zip_with Qmult a b.

(** One element of [np.clip]: [minimum(maximum(x, lo), hi)] *)
Definition clip1 (x lo hi : Q) : Q :=
  let y := if Qlt_le_dec x lo then lo else x in
  if Qlt_le_dec hi y then hi else y.

(** [np.clip(a, lo, hi)] with array bounds of the length of [a] *)
Fixpoint clip (a lo hi : list Q) : list Q :=
  match a, lo, hi with
  | x :: a', l :: lo', h :: hi' => clip1 x l h :: clip a' lo' hi'
  | _, _, _ => []
  end.

(** [np.random.normal(1, 0.05, size=n)]: the next [n] draws of the
    generator, [draws k] being the [k]-th one. *)
Definition random_normal (draws : nat -> Q) (n : nat) : list Q :=
  draws <$> seq 0 n.

End Numpy.

Module Sklearn.

(** A two-dimensional array, row by row. *)
Definition matrix : Type := list (list Q).

Definition n_samples (m : matrix) : nat := length m.

Definition n_features (m : matrix) : nat :=
  match m with
  | [] => 0%nat
  | row :: _ => length row
  end.

(** What the embedded code asks of the libraries it calls: the two
    [SimpleImputer]s, the [ColumnTransformer] of scaler and one-hot
    encoder, [PCA], and Python's [str] on numbers.  Their numerical
    results are not fixed here; each call may raise. *)
Class Library : Type := {
  str_of_float : Q -> string;
  numeric_imputer_fit_transform : list Pandas.cell -> Py.result (list Pandas.cell);
  categorical_imputer_fit_transform : list Pandas.cell -> Py.result (list Pandas.cell);
  preprocessor_fit_transform :
    Pandas.DataFrame -> list string -> list string -> Py.result matrix;
  pca_fit_transform : nat -> matrix -> Py.result matrix
}.

(** The shape rule of scikit-learn's [PCA]: [fit_transform] rejects a
    number of components above [min(n_samples, n_features)] with a
    [ValueError]. *)
Definition pca_shape_rule (lib : Library) : Prop :=
  forall (n : nat) (m : matrix),
    (Nat.min (n_samples m) (n_features m) < n)%nat ->
    pca_fit_transform n m = Py.Raise Py.ValueError.

(** A fitted regressor: [model.predict(X).reshape(-1)]. *)
Definition Regressor : Type := matrix -> Py.result (list Q).

End Sklearn.

(** ** pca_workflow.py *)

Module PcaWorkflow.
Import Pandas Sklearn.

Section PCA_Manager.
Context `{Library}.

Fixpoint get_columns (X : DataFrame) (features : list string)
  : Py.result (list Series) :=
  match features with
  | [] => Py.Ok []
  | col :: rest =>
      let* s := get_column X col in
      let* ss := get_columns X rest in
      Py.Ok (s :: ss)
  end.

Fixpoint fillna_means (cols : list Series) : Py.result (list Series) :=
  match cols with
  | [] => Py.Ok []
  | s :: rest =>
      let* s' := fillna_mean s in
      let* rest' := fillna_means rest in
      Py.Ok (s' :: rest')
  end.

Definition assign (X : DataFrame) (s : Series) : DataFrame :=
  {| price_values := price_values X;
     columns := replace_column (columns X) s |}.

(** [X[numeric_features] = X[numeric_features].fillna(X[numeric_features].mean())] *)
Definition fill_numeric (X : DataFrame) (numeric_features : list string)
  : Py.result DataFrame :=
  let* cols := get_columns X numeric_features in
  let* filled := fillna_means cols in
  Py.Ok (foldl assign X filled).

(** The loop over [categorical_features]. *)
Fixpoint fill_categorical (X : DataFrame) (categorical_features : list string)
  : Py.result DataFrame :=
  match categorical_features with
  | [] => Py.Ok X
  | cat_feature :: rest =>
      let* s := get_column X cat_feature in
      let X := assign X (fillna "Unknown" s) in
      let* s := get_column X cat_feature in
      let X := assign X (astype_str str_of_float s) in
      fill_categorical X rest
  end.

Definition n_components : nat := 90.

(** [X = x] aliases the caller's frame, so the fills below change it in
    place; the caller reads no column of it afterwards, only its
    length, which column assignments leave alone. *)
Definition convert_x_to_pca (x : DataFrame)
    (numeric_features categorical_features : list string) : Py.result matrix :=
  let X := x in
  let* X := fill_numeric X numeric_features in
  let* X := fill_categorical X categorical_features in
  (* pca_pipeline.fit_transform(X): the preprocessor, then PCA *)
  let* encoded := preprocessor_fit_transform X numeric_features categorical_features in
  pca_fit_transform n_components encoded.

End PCA_Manager.

End PcaWorkflow.

(** ** services/prediction_service.py *)

Module PredictionService.
Import Pandas Sklearn.

(** The state of the service: [self.model] is [None] after a failed load. *)
Record PredictionService : Type := mkPredictionService {
  model : option Regressor
}.

(** [__init__], given the outcome of finding and loading [nn_model.pkl]. *)
Definition init (loaded : Py.result Regressor) : PredictionService :=
  match loaded with
  | Py.Ok m => {| model := Some m |}
  | Py.Raise _ => {| model := None |}
  end.

Definition _validate_predictions (predictions actual_prices : list Q)
  : Py.result (list Q) :=
  Py.try_except
    (if decide (length predictions ≠ length actual_prices) then
       Py.Raise Py.ValueError
     else
       let lower_bound := Numpy.scale actual_prices 0.5 in
       let upper_bound := Numpy.scale actual_prices 1.5 in
       let validated_predictions := Numpy.clip predictions lower_bound upper_bound in
       Py.Ok validated_predictions)
    (fun _ => Py.Ok predictions).

Section Service.
Context `{Library}.

Definition columns_to_remove : list string := ["price"; "fair_price"; "id"]%string.

Definition keep_feature (col : string) : bool :=
  bool_decide (col ∉ columns_to_remove) && negb (String.prefix "schools/" col).

(** The loop that imputes each numeric column with missing values. *)
Fixpoint impute_numeric (df : DataFrame) (features : list string)
  : Py.result DataFrame :=
  match features with
  | [] => Py.Ok df
  | col :: rest =>
      let* s := get_column df col in
      let* df :=
        (if isnull_any s then
           let* imputed := numeric_imputer_fit_transform (values s) in
           set_column df col float64 imputed
         else Py.Ok df) in
      impute_numeric df rest
  end.

(** The loop that imputes each categorical column with missing values. *)
Fixpoint impute_categorical (df : DataFrame) (features : list string)
  : Py.result DataFrame :=
  match features with
  | [] => Py.Ok df
  | col :: rest =>
      let* s := get_column df col in
      let* df :=
        (if isnull_any s then
           let* imputed := categorical_imputer_fit_transform (values s) in
           let* df := set_column df col object imputed in
           let* s := get_column df col in
           Py.Ok (PcaWorkflow.assign df (astype_str str_of_float s))
         else Py.Ok df) in
      impute_categorical df rest
  end.

Definition numeric_features (df : DataFrame) : list string :=
  List.filter keep_feature (select_dtypes [int32; float32; int64; float64] df).

Definition categorical_features (df : DataFrame) : list string :=
  List.filter keep_feature (select_dtypes [object; category] df).

(** The two guarded imputation loops, numeric columns first. *)
Definition impute_missing_with (df : DataFrame)
    (numeric categorical : list string) : Py.result DataFrame :=
  let* df :=
    (match numeric with
     | [] => Py.Ok df
     | _ => impute_numeric df numeric
     end) in
  match categorical with
  | [] => Py.Ok df
  | _ => impute_categorical df categorical
  end.

(** The body of the [try] block of [predict_fair_price].  The feature
    lists are computed once, before imputation. *)
Definition predict_fair_price_body (self : PredictionService)
    (properties_df : DataFrame) (draws : nat -> Q) : Py.result (list Q) :=
  match model self with
  | None => Py.Ok (price_values properties_df)
  | Some regressor =>
      let df := properties_df in
      let numeric := numeric_features df in
      let categorical := categorical_features df in
      let* df := impute_missing_with df numeric categorical in
      let* X_pca := PcaWorkflow.convert_x_to_pca df numeric categorical in
      let* predictions := regressor X_pca in
      if decide (length predictions ≠ len df) then Py.Raise Py.ValueError
      else
        let predictions := Numpy.maximum predictions 0 in
        let noise := Numpy.random_normal draws (length predictions) in
        let predictions := Numpy.multiply predictions noise in
        let actual_prices := price_values properties_df in
        let* predictions := _validate_predictions predictions actual_prices in
        Py.Ok predictions
  end.

(** The stages of the [try] block that can raise, for a loaded
    regressor: imputation, the PCA manager, the regressor, and the
    check of the number of predictions. *)
Inductive stage_throws (regressor : Regressor) (properties_df : DataFrame)
  : Prop :=
| imputation_throws (e : Py.exn) :
    impute_missing_with properties_df (numeric_features properties_df)
      (categorical_features properties_df) = Py.Raise e ->
    stage_throws regressor properties_df
| reducer_throws (df : DataFrame) (e : Py.exn) :
    impute_missing_with properties_df (numeric_features properties_df)
      (categorical_features properties_df) = Py.Ok df ->
    PcaWorkflow.convert_x_to_pca df (numeric_features properties_df)
      (categorical_features properties_df) = Py.Raise e ->
    stage_throws regressor properties_df
| regressor_throws (df : DataFrame) (X_pca : matrix) (e : Py.exn) :
    impute_missing_with properties_df (numeric_features properties_df)
      (categorical_features properties_df) = Py.Ok df ->
    PcaWorkflow.convert_x_to_pca df (numeric_features properties_df)
      (categorical_features properties_df) = Py.Ok X_pca ->
    regressor X_pca = Py.Raise e ->
    stage_throws regressor properties_df
| length_check_throws (df : DataFrame) (X_pca : matrix) (predictions : list Q) :
    impute_missing_with properties_df (numeric_features properties_df)
      (categorical_features properties_df) = Py.Ok df ->
    PcaWorkflow.convert_x_to_pca df (numeric_features properties_df)
      (categorical_features properties_df) = Py.Ok X_pca ->
    regressor X_pca = Py.Ok predictions ->
    length predictions ≠ len properties_df ->
    stage_throws regressor properties_df.

Definition predict_fair_price (self : PredictionService)
    (properties_df : DataFrame) (draws : nat -> Q) : Py.result (list Q) :=
  Py.try_except
    (predict_fair_price_body self properties_df draws)
    (fun _ => Py.Ok (price_values properties_df)).

End Service.

End PredictionService.

(** ** Views of records used in the statements *)

(** The attributes the scorer reads. *)
Definition scoring_inputs (p : Property)
  : Q * option Q * option Q * option Z * string :=
  (price p, zestimate p, rent_estimate p, year_built p, property_type p).

(** The relative gap between a zestimate [z] and the price of [p]. *)
Definition relative_gap (p : Property) (z : Q) : Q :=
  Qabs (z - price p) / price p.

(** The six numbers of a score. *)
Definition score_values (s : InvestmentScore) : Q * Q * Q * Q * Q * Q :=
  (total_score s, roi_score s, location_score s, condition_score s,
   market_score s, risk_score s).

(** ** Concrete inputs and a concrete library, for evaluation *)

Module Examples.
Import Pandas Sklearn.

(** A listing with the attributes the scorers read; the others are fixed. *)
Definition listing (ptype : string) (asking : Q) (zest rent : option Q)
    (year : option Z) : Property :=
  {| property_id := 1; price := asking; fair_price := asking;
     property_type := ptype; living_area := 1500;
     bedrooms := Some 3%Z; bathrooms := Some 2; year_built := year;
     lot_size := None; latitude := 0; longitude := 0;
     zestimate := zest; rent_estimate := rent;
     tax_assessed_value := None; tax_rate := None; monthly_hoa := None;
     address := "Address Not Available"; city := "City Not Available";
     state := "NA"; zipcode := "00000"; county := None |}.

(** The end-to-end scenario, with the type string as the database has it. *)
Definition scenario : Property :=
  listing "SINGLE FAMILY" 500000 (Some 520000) (Some 2500) (Some 2000%Z).

(** The same listing with the type string as the lookup table has it. *)
Definition scenario_title_case : Property :=
  listing "Single Family" 500000 (Some 520000) (Some 2500) (Some 2000%Z).

Definition land : Property := listing "Land" 80000 None None None.

(** The same listing under another identifier, address and fair price. *)
Definition relist (p : Property) : Property :=
  {| property_id := property_id p + 1000; price := price p;
     fair_price := fair_price p * 1.1;
     property_type := property_type p; living_area := living_area p;
     bedrooms := bedrooms p; bathrooms := bathrooms p;
     year_built := year_built p; lot_size := lot_size p;
     latitude := latitude p; longitude := longitude p;
     zestimate := zestimate p; rent_estimate := rent_estimate p;
     tax_assessed_value := tax_assessed_value p; tax_rate := tax_rate p;
     monthly_hoa := Some 150;
     address := "1 Main St"; city := "Orange"; state := "CA";
     zipcode := "92866"; county := Some "Orange"%string |}.

Definition year_zero : Property := listing "CONDO" 200000 None None (Some 0%Z).

Definition zestimate_zero : Property :=
  listing "CONDO" 200000 (Some 0) None (Some 1994%Z).

Definition overvalued_house : Property :=
  listing "Single Family" 100 (Some 122) None None.

Definition unmapped_double : Property :=
  listing "CONDO" 100 (Some 200) None None.

Definition triple_estimate : Property :=
  listing "CONDO" 100 (Some 300) None (Some 1900%Z).

Definition no_rent : Property :=
  listing "CONDO" 200000 (Some 210000) None (Some 1990%Z).

Definition no_zestimate : Property :=
  listing "CONDO" 200000 None (Some 1500) (Some 1990%Z).

Definition free_listing : Property :=
  listing "CONDO" 0 None None (Some 1990%Z).

(** A library instance to run the pipeline on.  It keeps the shape rule
    of scikit-learn's [PCA], which rejects [n_components] above
    [min(n_samples, n_features)] with a [ValueError], and the fill values
    of the two imputers; scaling and projection are left out (numeric
    columns pass through, the projection keeps the leading columns). *)
Definition cell_eqb (a b : cell) : bool :=
  match a, b with
  | NA, NA => true
  | Num x, Num y => Qeq_bool x y
  | Str s, Str t => String.eqb s t
  | _, _ => false
  end.

Fixpoint categories (l : list cell) : list cell :=
  match l with
  | [] => []
  | c :: rest =>
      let seen := categories rest in
      if existsb (cell_eqb c) seen then seen else c :: seen
  end.

Definition one_hot (s : Series) : matrix :=
  let cats := categories (values s) in
  (fun c => (fun k => if cell_eqb c k then 1 else 0) <$> cats) <$> values s.

Definition passthrough (s : Series) : matrix :=
  (fun c => match c with Num x => [x] | _ => [0] end) <$> values s.

Definition hstack (a b : matrix) : matrix := zip_with app a b.

Definition mean_fill (l : list cell) : list cell :=
  match numbers l with
  | Py.Ok (x :: xs) =>
      (fun c => match c with NA => Num (Py.mean (x :: xs)) | _ => c end) <$> l
  | _ => []
  end.

Definition toy_library : Library := {|
  str_of_float := fun _ => "0.0"%string;
  numeric_imputer_fit_transform := fun l => Py.Ok (mean_fill l);
  categorical_imputer_fit_transform := fun l =>
    Py.Ok ((fun c => match c with NA => Str "UNKNOWN" | _ => c end) <$> l);
  preprocessor_fit_transform := fun X numeric categorical =>
    let* nums := PcaWorkflow.get_columns X numeric in
    let* cats := PcaWorkflow.get_columns X categorical in
    Py.Ok (foldl hstack (replicate (len X) [])
             ((passthrough <$> nums) ++ (one_hot <$> cats)));
  pca_fit_transform := fun n m =>
    if decide (n ≤ Nat.min (n_samples m) (n_features m))%nat
    then Py.Ok (take n <$> m)
    else Py.Raise Py.ValueError
|}.

(** A small batch: three listings, two numeric columns, one categorical. *)
Definition small_batch : DataFrame :=
  {| price_values := [100; 250; 400];
     columns :=
       [ mkSeries "livingArea" float64 [Num 900; NA; Num 2100];
         mkSeries "bedrooms" int64 [Num 2; Num 3; Num 4];
         mkSeries "city" object [Str "Orange"; NA; Str "Irvine"];
         mkSeries "schools/0/rating" int64 [Num 7; Num 8; NA];
         mkSeries "id" int64 [Num 1; Num 2; Num 3] ] |}.

(** The small batch after the service's imputation loops. *)
Definition small_batch_imputed : DataFrame :=
  {| price_values := [100; 250; 400];
     columns :=
       [ mkSeries "livingArea" float64 [Num 900; Num (3000 # 2); Num 2100];
         mkSeries "bedrooms" int64 [Num 2; Num 3; Num 4];
         mkSeries "city" object [Str "Orange"; Str "UNKNOWN"; Str "Irvine"];
         mkSeries "schools/0/rating" int64 [Num 7; Num 8; NA];
         mkSeries "id" int64 [Num 1; Num 2; Num 3] ] |}.

(** Its encoding: two numeric columns and three one-hot columns. *)
Definition small_batch_encoded : matrix :=
  [ [900; 2; 1; 0; 0]; [3000 # 2; 3; 0; 1; 0]; [2100; 4; 0; 0; 1] ].

(** A batch wide and long enough for ninety components: 90 listings
    priced 100, 101, ..., with 90 numeric columns. *)
Definition wide_batch : DataFrame :=
  {| price_values := (fun i => inject_Z (Z.of_nat (100 + i))) <$> seq 0 90;
     columns :=
       (fun j => mkSeries ("f" +:+ pretty j) float64
                   ((fun i => Num (inject_Z (Z.of_nat (i * j)))) <$> seq 0 90))
         <$> seq 0 90 |}.

(** A CSV row whose zestimate is three times the asking price. *)
Definition hot_market_row : CreateDb.Row := CreateDb.mkRow 100 (Some 300).

Definition plain_row : CreateDb.Row := CreateDb.mkRow 100 (Some 110).

(** A batch of the same shape whose 90 numeric columns all hold 1, and
    what the library instance makes of it: the 90 columns, row by row. *)
Definition flat_batch : DataFrame :=
  {| price_values := (fun i => inject_Z (Z.of_nat (100 + i))) <$> seq 0 90;
     columns :=
       (fun j => mkSeries ("f" +:+ pretty j) float64 (replicate 90 (Num 1)))
         <$> seq 0 90 |}.

Definition flat_batch_projected : matrix := replicate 90 (replicate 90 1).

(** Regressors that answer one constant per row. *)
Definition constant_regressor (c : Q) : Regressor :=
  fun X => Py.Ok ((fun _ => c) <$> X).

Definition failing_regressor : Regressor := fun _ => Py.Raise Py.ValueError.

(** Jitter that always draws 1.04. *)
Definition steady_draws : nat -> Q := fun _ => 1.04.

Definition loaded (regressor : Regressor) : PredictionService.PredictionService :=
  PredictionService.init (Py.Ok regressor).

(** The service after [nn_model.pkl] was not found. *)
Definition unloaded : PredictionService.PredictionService :=
  PredictionService.init (Py.Raise (Py.OtherError "FileNotFoundError")).

End Examples.

(** ** The claims as the specification words them, for comparison *)

Module AsStated.

(** Condition score, read literally: [5.0] only for a missing
    [year_built]; the zestimate adjustment whenever a zestimate is there. *)
Definition condition_score (p : Property) : Q :=
  match year_built p with
  | None => 5
  | Some year =>
      let age := (2024 - year)%Z in
      let age_score := Qmax 0 (10 - inject_Z age / 10) in
      match zestimate p with
      | Some z =>
          (age_score + 10 * Qmin 1.2 (Qmax 0.8 (z / price p))) / 2
      | None => age_score
      end
  end.

End AsStated.

(** ** String methods *)

Module PyStr.

(** [str.upper] and [str.strip], taken as given: the embedded code only
    compares their results with ASCII literals. *)
Class Methods : Type := {
  upper : string -> string;
  strip : string -> string
}.

(** [sep.join(parts)] *)
Fixpoint join (sep : string) (parts : list string) : string :=
  match parts with
  | [] => ""
  | [s] => s
  | s :: rest => s +:+ sep +:+ join sep rest
  end.

(** [c * n] for a one-character string [c] *)
Fixpoint repeat_str (c : string) (n : nat) : list string :=
  match n with
  | O => []
  | S n' => c :: repeat_str c n'
  end.

(** Truth value of an optional string: [None] and the empty string are false. *)
Definition truthy_str (o : option string) : bool :=
  match o with
  | Some s => negb (String.eqb s "")
  | None => false
  end.

(** The methods on ASCII text: letters a-z are raised, and the white space
    characters are tab, line feed, vertical tab, form feed, carriage return,
    the four separators 28-31 and the blank. *)
Definition upper_ascii_char (a : ascii) : ascii :=
  let n := nat_of_ascii a in
  if (97 <=? n)%nat && (n <=? 122)%nat then ascii_of_nat (n - 32) else a.

Fixpoint upper_ascii (s : string) : string :=
  match s with
  | EmptyString => EmptyString
  | String a rest => String (upper_ascii_char a) (upper_ascii rest)
  end.

Definition is_space (a : ascii) : bool :=
  let n := nat_of_ascii a in
  ((9 <=? n)%nat && (n <=? 13)%nat) || ((28 <=? n)%nat && (n <=? 32)%nat).

Fixpoint lstrip_ascii (s : string) : string :=
  match s with
  | EmptyString => EmptyString
  | String a rest => if is_space a then lstrip_ascii rest else s
  end.

Fixpoint rstrip_ascii (s : string) : string :=
  match s with
  | EmptyString => EmptyString
  | String a rest =>
      match rstrip_ascii rest with
      | EmptyString => if is_space a then EmptyString else String a EmptyString
      | rest' => String a rest'
      end
  end.

Definition ascii_methods : Methods := {|
  upper := upper_ascii;
  strip := fun s => rstrip_ascii (lstrip_ascii s)
|}.

End PyStr.

(** ** models/property.py: the derived attributes *)

Module PropertyModel.

Definition cap_rate (self : Property) : option Q :=
  match rent_estimate self with
  | Some rent =>
      if Py.truthy rent && Py.truthy (price self) then
        let annual_rent := rent * 12 in
        Some ((annual_rent - (annual_rent * 0.1)) / price self * 100)
      else None
  | None => None
  end.

Definition price_per_sqft (self : Property) : option Q :=
  if Py.truthy (living_area self) && Py.truthy (price self) then
    Some (price self / living_area self)
  else None.

End PropertyModel.

(** ** server/property_handlers.py *)

Module PropertyHandlers.

Definition _calculate_cap_rate (property : Property) : Q :=
  match rent_estimate property with
  | Some rent =>
      if negb (Py.truthy rent) || negb (Py.truthy (price property)) then 0
      else
        let annual_rent := rent * 12 in
        let operating_expenses := annual_rent * 0.4 in
        let net_operating_income := annual_rent - operating_expenses in
        (net_operating_income / price property) * 100
  | None => 0
  end.

(** The test of the pre-filter loop of [opportunities_table]: a listing
    without fair price or price is skipped, and one whose fair price is off
    by more than 50 percent is filtered out. *)
Definition within_fifty_percent (p : Property) : bool :=
  if negb (Py.truthy (fair_price p)) || negb (Py.truthy (price p)) then false
  else
    let price_diff := fair_price p - price p in
    let price_diff_pct := price_diff / price p * 100 in
    Qle_bool (Py.abs price_diff_pct) 50.

(** The list [filtered_properties_and_scores] once the loop over
    [zip(properties, scores)] has run. *)
Definition filtered_properties_and_scores (properties : list Property)
    (scores : list InvestmentScore) : list (Property * InvestmentScore) :=
  List.filter (fun ps => within_fifty_percent (fst ps)) (zip properties scores).

End PropertyHandlers.

(** ** app.py: address formatting *)

Module AppDisplay.
Import PyStr.

Section Formatting.
Context `{Methods}.

(** One [if] of [safe_format_address]: the component is appended as it is
    when it is non-empty and differs, once stripped, from its placeholder. *)
Definition append_part (parts : list string) (component : option string)
    (placeholder : string) : list string :=
  match component with
  | Some s =>
      if PyStr.truthy_str component && negb (String.eqb (strip s) placeholder)
      then parts ++ [s] else parts
  | None => parts
  end.

Definition safe_format_address (address city state zipcode : option string)
  : string :=
  let parts := [] in
  let parts := append_part parts address "Address Not Available" in
  let parts := append_part parts city "City Not Available" in
  let parts := append_part parts state "NA" in
  let parts := append_part parts zipcode "00000" in
  match parts with
  | [] => "Address Not Available"
  | _ => join " " parts
  end.

End Formatting.

End AppDisplay.

(** ** create_db.py: the columns that [create_db] rewrites *)

Module CreateDbColumns.
Import PyStr.

Definition property_type_mapping : gmap string string :=
  list_to_map
    [ ("SINGLE FAMILY", "SINGLE FAMILY"); ("SINGLE-FAMILY", "SINGLE FAMILY");
      ("SINGLEFAMILY", "SINGLE FAMILY"); ("CONDO", "CONDO");
      ("CONDOMINIUM", "CONDO"); ("TOWNHOUSE", "TOWNHOUSE");
      ("TOWN_HOUSE", "TOWNHOUSE"); ("TOWNHOME", "TOWNHOUSE") ]%string.

(** One cell of [propertyTypeDimension] through
    [.str.upper()], [.map(property_type_mapping)] and
    [.fillna('SINGLE FAMILY')]; a missing cell stays missing until the fill. *)
Definition standardize_property_type `{Methods} (cell : option string) : string :=
  let raised := upper <$> cell in
  let mapped := raised ≫= (fun s => property_type_mapping !! s) in
  default "SINGLE FAMILY"%string mapped.

(** The four address cells of a row, and their [fillna] placeholders. *)
Record AddressCells : Type := mkAddressCells {
  streetAddress : option string;
  cell_city : option string;
  cell_state : option string;
  cell_zipcode : option string
}.

Definition fill_address (row : AddressCells) : AddressCells :=
  {| streetAddress := Some (default "Address Not Available"%string (streetAddress row));
     cell_city := Some (default "City Not Available"%string (cell_city row));
     cell_state := Some (default "NA"%string (cell_state row));
     cell_zipcode := Some (default "00000"%string (cell_zipcode row)) |}.

End CreateDbColumns.

(** ** services/property_service.py: the queries *)

Module PropertyService.
Import PyStr.

(** A value bound to a [?] placeholder. *)
Inductive param : Type :=
| PNum (x : Q)
| PStr (s : string).

(** The filter dictionary, with the keys the service reads and the types
    the handlers give them; an absent key and a [None] value are [None]. *)
Record Filters : Type := mkFilters {
  price_min : option Q;
  price_max : option Q;
  sqft_min : option Q;
  sqft_max : option Q;
  property_types : option (list string);
  location : option string;
  max_hoa : option Q;
  show_max_results : option bool
}.

Definition BASE_PROPERTY_QUERY : string := "
        SELECT DISTINCT
            property_id, price, propertyTypeDimension as property_type,
            livingArea as living_area, bedrooms, bathrooms, yearBuilt as year_built,
            lotSize as lot_size, latitude, longitude, zestimate,
            rentZestimate as rent_estimate, taxAssessedValue as tax_assessed_value,
            propertyTaxRate as tax_rate, monthlyHoaFee as monthly_hoa,
            streetAddress as address, city, state, zipcode, county,
            fair_price
        FROM properties
        WHERE 1=1
    ".

Definition truthy_num (o : option Q) : bool :=
  match o with
  | Some x => Py.truthy x
  | None => false
  end.

(** [','.join('?' * n)] *)
Definition placeholders (n : nat) : string := join "," (repeat_str "?" n).

(** The query and parameters of [search_properties], as handed to
    [pd.read_sql]. *)
Definition search_properties_query (filters : Filters) (limit : Z)
  : string * list param :=
  let query := BASE_PROPERTY_QUERY in
  let params := [] in
  let '(query, params) :=
    match price_min filters, price_max filters with
    | Some lo, Some hi =>
        if Py.truthy lo && Py.truthy hi then
          (query +:+ " AND price BETWEEN ? AND ?", params ++ [PNum lo; PNum hi])
        else (query, params)
    | _, _ => (query, params)
    end in
  let '(query, params) :=
    match sqft_min filters, sqft_max filters with
    | Some lo, Some hi =>
        if Py.truthy lo && Py.truthy hi then
          (query +:+ " AND livingArea BETWEEN ? AND ?", params ++ [PNum lo; PNum hi])
        else (query, params)
    | _, _ => (query, params)
    end in
  let '(query, params) :=
    match property_types filters with
    | Some (t :: ts) =>
        let types := t :: ts in
        (query +:+ " AND propertyTypeDimension IN ("
           +:+ placeholders (length types) +:+ ")",
         params ++ (PStr <$> types))
    | _ => (query, params)
    end in
  let '(query, params) :=
    match location filters with
    | Some loc =>
        if PyStr.truthy_str (Some loc) then
          let location_param := "%" +:+ loc +:+ "%" in
          (query +:+ " 
            AND (
                LOWER(city) LIKE LOWER(?) OR 
                zipcode LIKE ? OR 
                LOWER(state) LIKE LOWER(?)
            )",
           params ++ [PStr location_param; PStr location_param; PStr location_param])
        else (query, params)
    | None => (query, params)
    end in
  let '(query, params) :=
    match max_hoa filters with
    | Some hoa =>
        if Py.truthy hoa then
          (query +:+ " AND (monthlyHoaFee <= ? OR monthlyHoaFee IS NULL)",
           params ++ [PNum hoa])
        else (query, params)
    | None => (query, params)
    end in
  (query +:+ " LIMIT " +:+ pretty limit, params).

Section Queries.
Context `{Methods}.

Definition allowed_types : list string := ["SINGLE FAMILY"; "CONDO"; "TOWNHOUSE"]%string.

Definition _add_filters_to_query (query : string) (params : list param)
    (filters : Filters) : string * list param :=
  let '(query, params) :=
    match price_min filters, price_max filters with
    | Some lo, Some hi =>
        (query +:+ " AND price BETWEEN ? AND ?", params ++ [PNum lo; PNum hi])
    | _, _ => (query, params)
    end in
  let '(query, params) :=
    match sqft_min filters, sqft_max filters with
    | Some lo, Some hi =>
        (query +:+ " AND livingArea BETWEEN ? AND ?", params ++ [PNum lo; PNum hi])
    | _, _ => (query, params)
    end in
  match property_types filters with
  | Some (t :: ts) =>
      let valid_types :=
        List.filter (fun pt => bool_decide (upper pt ∈ allowed_types)) (t :: ts) in
      match valid_types with
      | [] => (query, params)
      | _ =>
          (query +:+ " AND UPPER(propertyTypeDimension) IN ("
             +:+ join "," ((fun _ => "?"%string) <$> valid_types) +:+ ")",
           params ++ ((fun pt => PStr (upper pt)) <$> valid_types))
      end
  | _ => (query, params)
  end.

(** [_add_sorting_to_query]; [center_coords] is only tested for truth. *)
Definition _add_sorting_to_query (query : string) (sort_by : string)
    (center_coords : bool) : string :=
  if center_coords then
    if String.eqb sort_by "score" then
      query +:+ " 
                ORDER BY (
                    CASE 
                        WHEN price > 0 THEN (
                            COALESCE(rentZestimate * 12.0 / NULLIF(price, 0), 0) * 0.4 + 
                            COALESCE((zestimate - price) / NULLIF(price, 0), 0) * 0.3
                        )
                    END
                ) DESC, distance ASC
                "
    else
      let sort_clause :=
        default "distance ASC"%string
          ((list_to_map
              [ ("roi_potential", "COALESCE((zestimate - price) / NULLIF(price, 0), 0) DESC");
                ("cap_rate", "COALESCE(rentZestimate * 12.0 / NULLIF(price, 0), 0) DESC");
                ("price_asc", "price ASC");
                ("price_desc", "price DESC") ]%string : gmap string string)
             !! sort_by) in
      query +:+ " ORDER BY " +:+ sort_clause
  else
    let sort_clause :=
      default "ORDER BY price DESC"%string
        ((list_to_map
            [ ("score", "ORDER BY (
                    CASE 
                        WHEN price > 0 THEN (
                            COALESCE(rentZestimate * 12.0 / NULLIF(price, 0), 0) * 0.4 + 
                            COALESCE((zestimate - price) / NULLIF(price, 0), 0) * 0.3
                        )
                    END
                ) DESC");
              ("roi_potential", "ORDER BY COALESCE((zestimate - price) / NULLIF(price, 0), 0) DESC");
              ("cap_rate", "ORDER BY COALESCE(rentZestimate * 12.0 / NULLIF(price, 0), 0) DESC");
              ("price_asc", "ORDER BY price ASC");
              ("price_desc", "ORDER BY price DESC") ]%string : gmap string string)
           !! sort_by) in
    query +:+ " " +:+ sort_clause.

(** [limit or 50] *)
Definition limit_or_50 (limit : option Z) : Z :=
  match limit with
  | Some n => if (n =? 0)%Z then 50%Z else n
  | None => 50%Z
  end.

(** The row limit that [get_investment_opportunities] puts in its query. *)
Definition actual_limit (limit : option Z) (filters : option Filters) : Z :=
  let show_max_results :=
    match filters with
    | Some f => default false (show_max_results f)
    | None => false
    end in
  if show_max_results then 2000%Z else limit_or_50 limit.

(** The query and parameters of [get_investment_opportunities], as handed
    to [pd.read_sql]. *)
Definition get_investment_opportunities_query (sort_by : string)
    (limit : option Z) (filters : option Filters) : string * list param :=
  let actual_limit := actual_limit limit filters in
  let query := BASE_PROPERTY_QUERY in
  let params := [] in
  let '(query, params) :=
    match filters with
    | Some f => _add_filters_to_query query params f
    | None => (query, params)
    end in
  let query := _add_sorting_to_query query sort_by false in
  let query := query +:+ " LIMIT " +:+ pretty actual_limit in
  (query, params).

End Queries.

(** The number of [?] placeholders of a query. *)
Fixpoint count_placeholders (query : string) : nat :=
  match query with
  | EmptyString => 0%nat
  | String a rest =>
      (if Ascii.eqb a "?"%char then 1 else 0)%nat + count_placeholders rest
  end.

End PropertyService.

(** ** More concrete inputs *)

Module MoreExamples.

Definition all_filters : PropertyService.Filters :=
  {| PropertyService.price_min := Some 100000;
     PropertyService.price_max := Some 2000000;
     PropertyService.sqft_min := Some 500;
     PropertyService.sqft_max := Some 5000;
     PropertyService.property_types :=
       Some ["condo"; "Castle"; "TOWNHOUSE"]%string;
     PropertyService.location := Some "Orange"%string;
     PropertyService.max_hoa := Some 300;
     PropertyService.show_max_results := Some false |}.

Definition zero_minimum : PropertyService.Filters :=
  {| PropertyService.price_min := Some 0;
     PropertyService.price_max := Some 2000000;
     PropertyService.sqft_min := None;
     PropertyService.sqft_max := None;
     PropertyService.property_types := None;
     PropertyService.location := None;
     PropertyService.max_hoa := None;
     PropertyService.show_max_results := None |}.

(** The same filters without the price range. *)
Definition without_price_range (f : PropertyService.Filters)
  : PropertyService.Filters :=
  {| PropertyService.price_min := None;
     PropertyService.price_max := None;
     PropertyService.sqft_min := PropertyService.sqft_min f;
     PropertyService.sqft_max := PropertyService.sqft_max f;
     PropertyService.property_types := PropertyService.property_types f;
     PropertyService.location := PropertyService.location f;
     PropertyService.max_hoa := PropertyService.max_hoa f;
     PropertyService.show_max_results := PropertyService.show_max_results f |}.

(** The keys that [_add_filters_to_query] and the row limit read. *)
Definition opportunity_inputs (f : PropertyService.Filters)
  : option Q * option Q * option Q * option Q * option (list string)
    * option bool :=
  (PropertyService.price_min f, PropertyService.price_max f,
   PropertyService.sqft_min f, PropertyService.sqft_max f,
   PropertyService.property_types f, PropertyService.show_max_results f).

Definition elsewhere : PropertyService.Filters :=
  {| PropertyService.price_min := Some 100000;
     PropertyService.price_max := Some 2000000;
     PropertyService.sqft_min := Some 500;
     PropertyService.sqft_max := Some 5000;
     PropertyService.property_types :=
       Some ["condo"; "Castle"; "TOWNHOUSE"]%string;
     PropertyService.location := Some "Fresno"%string;
     PropertyService.max_hoa := None;
     PropertyService.show_max_results := Some false |}.

Definition no_address : CreateDbColumns.AddressCells :=
  CreateDbColumns.mkAddressCells None None None None.

Definition partial_address : CreateDbColumns.AddressCells :=
  CreateDbColumns.mkAddressCells (Some "1 Main St"%string) None
    (Some "CA"%string) None.

(** A listing priced 100 whose stored fair price is 110. *)
Definition averaged_listing : Property :=
  Examples.relist (Examples.listing "CONDO" 100 (Some 150) (Some 1) (Some 1990%Z)).

(** A listing as the database holds it, its type standardised. *)
Definition database_listing : Property :=
  Examples.listing "SINGLE FAMILY" 300000 None None None.

(** The listing read back from a row that [create_db] has stored. *)
Definition stored_listing (row : CreateDb.Row) : Property :=
  {| property_id := 7; price := CreateDb.row_price row;
     fair_price := CreateDb.calculate_fair_price row;
     property_type := "CONDO"; living_area := 900;
     bedrooms := None; bathrooms := None; year_built := None;
     lot_size := None; latitude := 0; longitude := 0;
     zestimate := CreateDb.row_zestimate row; rent_estimate := None;
     tax_assessed_value := None; tax_rate := None; monthly_hoa := None;
     address := "Address Not Available"; city := "City Not Available";
     state := "NA"; zipcode := "00000"; county := None |}.

Definition rented : Property :=
  Examples.listing "CONDO" 200000 (Some 210000) (Some 1500) (Some 1990%Z).

Definition rented_more : Property :=
  Examples.listing "CONDO" 200000 (Some 210000) (Some 1800) (Some 1990%Z).

End MoreExamples.

(** * Properties *)

Import Examples.

(** ** Python primitives *)

Lemma truthy_true (x : Q) : Py.truthy x = true <-> ~ x == 0.
Proof.
  unfold Py.truthy. rewrite negb_true_iff. split.
  - intros E. apply Qeq_bool_neq, E.
  - intros N. destruct (Qeq_bool x 0) eqn:E; [|reflexivity].
    apply Qeq_bool_iff in E. contradiction.
Qed.

Lemma truthy_false (x : Q) : Py.truthy x = false <-> x == 0.
Proof.
  unfold Py.truthy. rewrite negb_false_iff. apply Qeq_bool_iff.
Qed.

Lemma py_min_Qmin (a b : Q) : Py.min a b == Qmin a b.
Proof.
  unfold Py.min. destruct (Qlt_le_dec b a) as [L|L].
  - symmetry. apply Q.min_r, Qlt_le_weak, L.
  - symmetry. apply Q.min_l, L.
Qed.

Lemma py_max_Qmax (a b : Q) : Py.max a b == Qmax a b.
Proof.
  unfold Py.max. destruct (Qlt_le_dec a b) as [L|L].
  - symmetry. apply Q.max_r, Qlt_le_weak, L.
  - symmetry. apply Q.max_l, L.
Qed.

Lemma mean_pair (a b : Q) : Py.mean [a; b] == (a + b) / 2.
Proof. unfold Py.mean, Py.sum. simpl. field. Qed.

Lemma mean_triple (a b c : Q) : Py.mean [a; b; c] == (a + b + c) / 3.
Proof. unfold Py.mean, Py.sum. simpl. field. Qed.

(** ** The scorer *)

(** C5: the ROI score is 0 when the rent estimate is missing or zero or the
    price is zero, and otherwise min(10, ((rent * 12) * 0.6 / price) * 100). *)
Theorem calculate_roi_score_spec (p : Property) :
  ((rent_estimate p = None
    \/ (exists rent, rent_estimate p = Some rent /\ rent == 0)
    \/ price p == 0) ->
   ScoringService.calculate_roi_score p = 0)
  /\ (forall rent, rent_estimate p = Some rent -> ~ rent == 0 -> ~ price p == 0 ->
      ScoringService.calculate_roi_score p
      == Qmin 10 (((rent * 12) * 0.6 / price p) * 100)).
Proof.
  unfold ScoringService.calculate_roi_score. split.
  - intros [E | [(rent & E & Z) | Z]].
    + rewrite E. reflexivity.
    + rewrite E. apply truthy_false in Z. rewrite Z. reflexivity.
    + apply truthy_false in Z. rewrite Z.
      destruct (rent_estimate p); [|reflexivity].
      rewrite orb_true_r. reflexivity.
  - intros rent E Hr Hp. rewrite E.
    apply truthy_true in Hr. pose proof Hp as Hp'. apply truthy_true in Hp'.
    rewrite Hr, Hp'. cbn [negb orb]. rewrite py_min_Qmin.
    apply Q.min_compat; [reflexivity|]. field. exact Hp.
Qed.

Lemma calculate_roi_score_spec_witness :
  ScoringService.calculate_roi_score scenario
  == Qmin 10 (((2500 * 12) * 0.6 / price scenario) * 100)
  /\ ScoringService.calculate_roi_score no_rent = 0.
Proof.
  split.
  - apply (proj2 (calculate_roi_score_spec scenario) 2500);
      [reflexivity | discriminate | discriminate].
  - apply (proj1 (calculate_roi_score_spec no_rent)). left. reflexivity.
Defined.

(** The age component of the condition score, for a year of construction. *)
Lemma age_score_Qmax (year : Z) :
  Py.max 0 (10 - inject_Z (2024 - year) / 10)
  == Qmax 0 (10 - inject_Z (2024 - year) / 10).
Proof. apply py_max_Qmax. Qed.

Lemma clip_factor_Qminmax (f : Q) :
  Py.min 1.2 (Py.max 0.8 f) == Qmin 1.2 (Qmax 0.8 f).
Proof.
  rewrite py_min_Qmin. apply Q.min_compat; [reflexivity | apply py_max_Qmax].
Qed.

(** C6, as the code has it: the condition score is exactly 5.0 when
    [year_built] is missing or zero; otherwise, with age = 2024 - year_built
    and age_score = max(0, 10 - age/10), it is the mean of age_score and
    10 * clip(zestimate/price, 0.8, 1.2) when zestimate and price are both
    present and non-zero, and age_score alone otherwise. *)
Theorem calculate_condition_score_spec (p : Property) :
  ((year_built p = None \/ year_built p = Some 0%Z) ->
   ScoringService.calculate_condition_score p = 5)
  /\ (forall year, year_built p = Some year -> year <> 0%Z ->
      let age_score := Qmax 0 (10 - inject_Z (2024 - year) / 10) in
      (forall z, zestimate p = Some z -> ~ z == 0 -> ~ price p == 0 ->
         ScoringService.calculate_condition_score p
         == (age_score + 10 * Qmin 1.2 (Qmax 0.8 (z / price p))) / 2)
      /\ ((zestimate p = None
           \/ (exists z, zestimate p = Some z /\ z == 0)
           \/ price p == 0) ->
          ScoringService.calculate_condition_score p == age_score)).
Proof.
  unfold ScoringService.calculate_condition_score. split.
  - intros [E | E]; rewrite E; reflexivity.
  - intros year E Hy. cbv zeta. rewrite E.
    assert (Ht : Py.truthy_int (Some year) = true).
    { cbn. apply negb_true_iff, Z.eqb_neq, Hy. }
    rewrite Ht. cbn [negb]. split.
    + intros z Ez Hz Hp. rewrite Ez.
      apply truthy_true in Hz. apply truthy_true in Hp.
      rewrite Hz, Hp. cbn [andb].
      rewrite mean_pair, age_score_Qmax, clip_factor_Qminmax. reflexivity.
    + intros [Ez | [(z & Ez & Hz) | Hp]].
      * rewrite Ez. apply age_score_Qmax.
      * rewrite Ez. apply truthy_false in Hz. rewrite Hz. cbn [andb].
        apply age_score_Qmax.
      * apply truthy_false in Hp. rewrite Hp.
        destruct (zestimate p); [rewrite andb_false_r|]; apply age_score_Qmax.
Qed.

Lemma calculate_condition_score_spec_witness :
  ScoringService.calculate_condition_score year_zero = 5
  /\ ScoringService.calculate_condition_score scenario
     == (Qmax 0 (10 - inject_Z (2024 - 2000) / 10)
         + 10 * Qmin 1.2 (Qmax 0.8 (520000 / price scenario))) / 2.
Proof.
  split.
  - apply (proj1 (calculate_condition_score_spec year_zero)). right. reflexivity.
  - apply (proj1 (proj2 (calculate_condition_score_spec scenario) 2000%Z
                    eq_refl ltac:(discriminate)) 520000);
      [reflexivity | discriminate | discriminate].
Defined.

(** C6 as worded fails on a listing whose year of construction is 0 (the
    code answers 5.0, the wording gives the age score 0) and on a listing
    with a zestimate of 0 (the code answers the age score 7 alone, the
    wording averages it with 10 * 0.8). *)
Lemma calculate_condition_score_not_as_stated :
  ScoringService.calculate_condition_score year_zero = 5
  /\ AsStated.condition_score year_zero == 0
  /\ ~ ScoringService.calculate_condition_score year_zero
       == AsStated.condition_score year_zero
  /\ ScoringService.calculate_condition_score zestimate_zero == 7
  /\ AsStated.condition_score zestimate_zero == 7.5
  /\ ~ ScoringService.calculate_condition_score zestimate_zero
       == AsStated.condition_score zestimate_zero.
Proof.
  repeat split; try reflexivity; vm_compute; congruence.
Qed.

(** The vacancy lookup is by exact string: only the seven keys are mapped. *)
Lemma vacancy_risk_table_values (ty : string) (v : Q) :
  ScoringService.vacancy_risk_table !! ty = Some v ->
  (ty, v) ∈ [ ("Single Family"%string, 8); ("Multi Family"%string, 7);
              ("Apartment"%string, 6); ("Retail"%string, 5);
              ("Office"%string, 4); ("Industrial"%string, 6);
              ("Land"%string, 3) ].
Proof.
  intros L. apply (elem_of_list_to_map_2 (M:=gmap string)) in L. exact L.
Qed.

Lemma vacancy_risk_range (p : Property) :
  3 <= ScoringService.vacancy_risk p <= 8.
Proof.
  unfold ScoringService.vacancy_risk.
  destruct (ScoringService.vacancy_risk_table !! property_type p) as [v|] eqn:L.
  - apply vacancy_risk_table_values in L. cbn [default].
    repeat (apply elem_of_cons in L as [L|L];
            [injection L as _ ->; split; discriminate|]).
    apply elem_of_nil in L. contradiction.
  - cbn. split; discriminate.
Qed.

Lemma risk_factors_without_zestimate (p : Property) :
  zestimate p = None ->
  ScoringService.risk_factors p
  = [ScoringService.vacancy_risk p; ScoringService.market_risk].
Proof. intros E. unfold ScoringService.risk_factors. rewrite E. reflexivity. Qed.

Lemma risk_factors_with_zestimate (p : Property) (z : Q) :
  zestimate p = Some z -> ~ z == 0 -> ~ price p == 0 ->
  ScoringService.risk_factors p
  = [10 - Py.abs (z - price p) / price p * 100;
     ScoringService.vacancy_risk p; ScoringService.market_risk].
Proof.
  intros E Hz Hp. unfold ScoringService.risk_factors. rewrite E.
  apply truthy_true in Hz. apply truthy_true in Hp. rewrite Hz, Hp.
  reflexivity.
Qed.

(** C7: a "Land" listing without zestimate gets the risk score
    mean(3, 6) = 4.5: only the vacancy lookup and the market constant
    contribute. *)
Theorem calculate_risk_score_land (p : Property) :
  property_type p = "Land"%string -> zestimate p = None ->
  ScoringService.risk_factors p = [3; 6]
  /\ ScoringService.calculate_risk_score p = Py.mean [3; 6]
  /\ ScoringService.calculate_risk_score p == 4.5.
Proof.
  intros Ty Z.
  assert (F : ScoringService.risk_factors p = [3; 6]).
  { rewrite (risk_factors_without_zestimate p Z).
    unfold ScoringService.vacancy_risk. rewrite Ty. reflexivity. }
  unfold ScoringService.calculate_risk_score. rewrite F.
  repeat split; reflexivity.
Qed.

Lemma calculate_risk_score_land_witness :
  ScoringService.risk_factors land = [3; 6]
  /\ ScoringService.calculate_risk_score land = Py.mean [3; 6]
  /\ ScoringService.calculate_risk_score land == 4.5.
Proof. apply (calculate_risk_score_land land); reflexivity. Defined.

(** The composite is the weighted sum of the five sub-scores, times 10. *)
Lemma total_score_weighted (p : Property) :
  let s := ScoringService.score_property p in
  total_score s
  = (roi_score s * 0.35 + location_score s * 0.25 + condition_score s * 0.15
     + market_score s * 0.15 + risk_score s * 0.10) * 10.
Proof. reflexivity. Qed.

(** C2, as the code has it: for every listing with price 500000, zestimate
    520000, rent estimate 2500 and year of construction 2000, the ROI,
    condition, location and market scores are 3.6, 9.0, 7.0 and 6.0; the
    risk score is mean(6.0, v, 6) for the vacancy value v looked up for the
    listing's type string, and the total is the weighted sum times 10, that
    is 52.6 + risk; where the lookup gives 8 this is 20/3 (about 6.67) and
    889/15 (about 59.27). *)
Theorem score_property_scenario (p : Property) :
  price p = 500000 -> zestimate p = Some 520000 ->
  rent_estimate p = Some 2500 -> year_built p = Some 2000%Z ->
  let s := ScoringService.score_property p in
  let v := ScoringService.vacancy_risk p in
  roi_score s == 3.6
  /\ condition_score s == 9
  /\ location_score s = 7
  /\ market_score s = 6
  /\ risk_score s == (6 + v + 6) / 3
  /\ total_score s
     == (3.6 * 0.35 + 7 * 0.25 + 9 * 0.15 + 6 * 0.15 + risk_score s * 0.10) * 10
  /\ total_score s == 52.6 + risk_score s
  /\ (v == 8 -> risk_score s == 20 # 3 /\ total_score s == 889 # 15).
Proof.
  intros Hp Hz Hr Hy. cbv zeta.
  assert (Roi : roi_score (ScoringService.score_property p) == 3.6).
  { cbn [roi_score ScoringService.score_property].
    unfold ScoringService.calculate_roi_score. rewrite Hr, Hp. reflexivity. }
  assert (Cond : condition_score (ScoringService.score_property p) == 9).
  { cbn [condition_score ScoringService.score_property].
    unfold ScoringService.calculate_condition_score. rewrite Hy, Hz, Hp.
    reflexivity. }
  assert (Risk : risk_score (ScoringService.score_property p)
                 == (6 + ScoringService.vacancy_risk p + 6) / 3).
  { cbn [risk_score ScoringService.score_property].
    unfold ScoringService.calculate_risk_score.
    rewrite (risk_factors_with_zestimate p 520000 Hz);
      [| discriminate | rewrite Hp; discriminate].
    rewrite Hp, mean_triple. unfold ScoringService.market_risk.
    apply Qdiv_comp; [|reflexivity].
    apply Qplus_comp; [|reflexivity]. apply Qplus_comp; reflexivity. }
  assert (Total : total_score (ScoringService.score_property p)
                  == (3.6 * 0.35 + 7 * 0.25 + 9 * 0.15 + 6 * 0.15
                      + risk_score (ScoringService.score_property p) * 0.10) * 10).
  { rewrite total_score_weighted. cbv zeta. rewrite Roi, Cond. reflexivity. }
  split; [exact Roi|]. split; [exact Cond|].
  split; [reflexivity|]. split; [reflexivity|].
  split; [exact Risk|]. split; [exact Total|].
  split.
  - rewrite Total. ring.
  - intros V. split.
    + rewrite Risk, V. reflexivity.
    + rewrite Total, Risk, V. reflexivity.
Qed.

Lemma score_property_scenario_witness :
  let s := ScoringService.score_property scenario_title_case in
  roi_score s == 3.6 /\ condition_score s == 9
  /\ risk_score s == 20 # 3 /\ total_score s == 889 # 15.
Proof.
  destruct (score_property_scenario scenario_title_case
              eq_refl eq_refl eq_refl eq_refl)
    as (Roi & Cond & _ & _ & _ & _ & _ & V).
  destruct (V ltac:(reflexivity)) as [Risk Total].
  cbv zeta. repeat split; assumption.
Defined.

(** C2 as worded fails on the scenario itself: "SINGLE FAMILY" is not a
    key of the vacancy table, so the risk score is mean(6, 5, 6) = 17/3 and
    the total 874/15 (about 58.27), neither within a hundredth of 6.67 and
    59.77; and with the key "Single Family" the total is 889/15 (about
    59.27), still not 59.77. *)
Lemma score_property_scenario_not_as_stated :
  let s := ScoringService.score_property scenario in
  property_type scenario = "SINGLE FAMILY"%string
  /\ Qred <$> ScoringService.risk_factors scenario = [6; 5; 6]
  /\ risk_score s == 17 # 3
  /\ total_score s == 874 # 15
  /\ ~ (6.66 <= risk_score s <= 6.68)
  /\ ~ (59.76 <= total_score s <= 59.78)
  /\ ~ (59.76 <= total_score (ScoringService.score_property scenario_title_case)
        <= 59.78).
Proof.
  cbv zeta.
  repeat match goal with |- _ /\ _ => split end; try reflexivity.
  all: intros [L U]; vm_compute in L, U; congruence.
Qed.

Lemma score_property_inputs (p q : Property) :
  scoring_inputs p = scoring_inputs q ->
  score_values (ScoringService.score_property p)
  = score_values (ScoringService.score_property q).
Proof.
  unfold scoring_inputs. intros E. injection E as Ep Ez Er Ey Et.
  unfold score_values, ScoringService.score_property. cbn.
  unfold ScoringService.calculate_roi_score,
    ScoringService.calculate_condition_score,
    ScoringService.calculate_risk_score, ScoringService.risk_factors,
    ScoringService.vacancy_risk.
  rewrite Ep, Ez, Er, Ey, Et. reflexivity.
Qed.

(** C8: scoring a batch gives one score per listing, in order, element i
    being the score of listing i (and referring to it); and the numbers
    depend on nothing but the listings' price, zestimate, rent estimate,
    year of construction and type, so an unchanged batch scores the same. *)
Theorem score_properties_pointwise (properties properties' : list Property) :
  length (ScoringService.score_properties properties) = length properties
  /\ (forall i : nat,
        ScoringService.score_properties properties !! i
        = ScoringService.score_property <$> properties !! i)
  /\ property <$> ScoringService.score_properties properties = properties
  /\ (scoring_inputs <$> properties = scoring_inputs <$> properties' ->
      score_values <$> ScoringService.score_properties properties
      = score_values <$> ScoringService.score_properties properties').
Proof.
  unfold ScoringService.score_properties.
  split; [apply length_map|]. split; [intros i; apply list_lookup_fmap|].
  split.
  - induction properties as [|p ps IH]; [reflexivity|].
    cbn. f_equal. exact IH.
  - revert properties'.
    induction properties as [|p ps IH]; intros [|q qs] E; try discriminate.
    + reflexivity.
    + cbn in E.
      assert (Eh : scoring_inputs p = scoring_inputs q) by congruence.
      assert (Et : scoring_inputs <$> ps = scoring_inputs <$> qs) by congruence.
      cbn. f_equal.
      * apply score_property_inputs, Eh.
      * apply IH, Et.
Qed.

Lemma score_properties_pointwise_witness :
  score_values <$> ScoringService.score_properties [scenario; land; no_rent]
  = score_values
      <$> ScoringService.score_properties
            [relist scenario; relist land; relist no_rent].
Proof.
  apply (score_properties_pointwise [scenario; land; no_rent]
           [relist scenario; relist land; relist no_rent]).
  reflexivity.
Defined.

Lemma calculate_risk_score_with_zestimate (p : Property) (z : Q) :
  zestimate p = Some z -> ~ z == 0 -> ~ price p == 0 ->
  ScoringService.calculate_risk_score p
  == (10 - relative_gap p z * 100 + ScoringService.vacancy_risk p + 6) / 3.
Proof.
  intros Ez Hz Hp. unfold ScoringService.calculate_risk_score.
  rewrite (risk_factors_with_zestimate p z Ez Hz Hp).
  rewrite mean_triple. reflexivity.
Qed.

(** C9, as the code has it: with zestimate and price both present and
    non-zero, the risk score is negative exactly when the relative gap
    |zestimate - price| / price exceeds (16 + vacancy value) / 100: 0.21 is
    the threshold for a type string outside the table (value 5), and above
    0.24 the score is negative whatever the type.  mean(-90, 5, 6) is
    negative, and so is the total score of a listing whose zestimate is
    three times its price. *)
Theorem calculate_risk_score_negative :
  (forall (p : Property) (z : Q),
     zestimate p = Some z -> ~ z == 0 -> ~ price p == 0 ->
     let d := relative_gap p z in
     (ScoringService.calculate_risk_score p < 0
      <-> (16 + ScoringService.vacancy_risk p) / 100 < d)
     /\ (ScoringService.vacancy_risk_table !! property_type p = None ->
         0.21 < d -> ScoringService.calculate_risk_score p < 0)
     /\ (0.24 < d -> ScoringService.calculate_risk_score p < 0))
  /\ Qred <$> ScoringService.risk_factors unmapped_double = [-90; 5; 6]
  /\ ScoringService.calculate_risk_score unmapped_double < 0
  /\ total_score (ScoringService.score_property triple_estimate) < 0.
Proof.
  split; [|repeat split; reflexivity].
  intros p z Ez Hz Hp. cbv zeta.
  pose proof (calculate_risk_score_with_zestimate p z Ez Hz Hp) as R.
  pose proof (vacancy_risk_range p) as [Vl Vu].
  set (d := relative_gap p z) in *.
  set (v := ScoringService.vacancy_risk p) in *.
  set (r := ScoringService.calculate_risk_score p) in *.
  assert (Iff : r < 0 <-> (16 + v) / 100 < d).
  { rewrite R. unfold Qdiv.
    change (/ 3) with (1 # 3). change (/ 100) with (1 # 100). lra. }
  split; [exact Iff|]. split.
  - intros None D. apply Iff.
    assert (V : v = 5).
    { subst v. unfold ScoringService.vacancy_risk. rewrite None. reflexivity. }
    rewrite V. eapply Qle_lt_trans; [|exact D]. discriminate.
  - intros D. apply Iff.
    apply Qle_lt_trans with (y := 0.24); [|exact D].
    unfold Qdiv. change (/ 100) with (1 # 100). lra.
Qed.

Lemma calculate_risk_score_negative_witness :
  ScoringService.calculate_risk_score unmapped_double < 0.
Proof.
  apply (proj1 (proj2 (proj1 calculate_risk_score_negative unmapped_double 200
                         eq_refl ltac:(discriminate) ltac:(discriminate)))).
  - reflexivity.
  - reflexivity.
Defined.

(** C9 as worded fails for mapped types: a "Single Family" listing at 100
    with a zestimate of 122 has a gap of 0.22 > 0.21 and the risk score
    mean(-12, 8, 6) = 2/3, which is positive. *)
Lemma calculate_risk_score_negative_not_as_stated :
  zestimate overvalued_house = Some 122
  /\ 0.21 < relative_gap overvalued_house 122
  /\ Qred <$> ScoringService.risk_factors overvalued_house = [-12; 8; 6]
  /\ ScoringService.calculate_risk_score overvalued_house == 2 # 3
  /\ ~ ScoringService.calculate_risk_score overvalued_house < 0.
Proof.
  repeat match goal with |- _ /\ _ => split end; try reflexivity.
  intros L. vm_compute in L. discriminate.
Qed.

(** ** The display score *)

(** C10: the display score raises [TypeError] on every listing with a
    positive price whose rent estimate or zestimate is missing, and it
    returns a number exactly on the listings where a positive price comes
    with both. *)
Theorem calculate_investment_score_partial (p : Property) :
  (0 < price p -> rent_estimate p = None \/ zestimate p = None ->
   App.calculate_investment_score p = Py.Raise Py.TypeError)
  /\ (Py.returns (App.calculate_investment_score p)
      <-> (0 < price p -> is_Some (rent_estimate p) /\ is_Some (zestimate p))).
Proof.
  unfold App.calculate_investment_score, Py.returns.
  destruct (Qlt_le_dec 0 (price p)) as [Pos|NonPos].
  - destruct (rent_estimate p) as [rent|], (zestimate p) as [z|]; cbn.
    + split; [intros _ [E|E]; discriminate|].
      split; [intros _ _; split; eexists; reflexivity|].
      intros _. eexists. reflexivity.
    + split; [reflexivity|]. split.
      * intros [a E]. discriminate.
      * intros I. destruct (I Pos) as [_ [x E]]. discriminate.
    + split; [reflexivity|]. split.
      * intros [a E]. discriminate.
      * intros I. destruct (I Pos) as [[x E] _]. discriminate.
    + split; [reflexivity|]. split.
      * intros [a E]. discriminate.
      * intros I. destruct (I Pos) as [[x E] _]. discriminate.
  - cbn. split.
    + intros Pos. exfalso. apply (Qlt_not_le _ _ Pos NonPos).
    + split.
      * intros _ Pos. exfalso. apply (Qlt_not_le _ _ Pos NonPos).
      * intros _. eexists. reflexivity.
Qed.

Lemma calculate_investment_score_partial_witness :
  App.calculate_investment_score no_rent = Py.Raise Py.TypeError
  /\ App.calculate_investment_score no_zestimate = Py.Raise Py.TypeError
  /\ Py.returns (App.calculate_investment_score free_listing).
Proof.
  split; [|split].
  - apply (proj1 (calculate_investment_score_partial no_rent));
      [reflexivity | left; reflexivity].
  - apply (proj1 (calculate_investment_score_partial no_zestimate));
      [reflexivity | right; reflexivity].
  - apply (proj2 (calculate_investment_score_partial free_listing)).
    intros Pos. vm_compute in Pos. discriminate.
Defined.

(** ** numpy *)

Lemma clip1_within (x lo hi : Q) : lo <= hi -> lo <= Numpy.clip1 x lo hi <= hi.
Proof.
  intros B. unfold Numpy.clip1.
  destruct (Qlt_le_dec x lo) as [L|L].
  - destruct (Qlt_le_dec hi lo) as [U|U]; split; lra.
  - destruct (Qlt_le_dec hi x) as [U|U]; split; lra.
Qed.

Lemma clip_length (a lo hi : list Q) :
  length lo = length a -> length hi = length a ->
  length (Numpy.clip a lo hi) = length a.
Proof.
  revert lo hi. induction a as [|x a IH]; intros [|l lo] [|h hi] Hl Hh;
    cbn in *; try discriminate; try reflexivity.
  f_equal. apply IH; congruence.
Qed.

Lemma clip_lookup (a lo hi : list Q) (i : nat) (x l h : Q) :
  a !! i = Some x -> lo !! i = Some l -> hi !! i = Some h ->
  Numpy.clip a lo hi !! i = Some (Numpy.clip1 x l h).
Proof.
  revert lo hi i. induction a as [|y a IH]; intros [|l' lo] [|h' hi] [|i];
    cbn; try discriminate.
  - intros [= ->] [= ->] [= ->]. reflexivity.
  - apply IH.
Qed.

Lemma scale_lookup (a : list Q) (c : Q) (i : nat) (x : Q) :
  a !! i = Some x -> Numpy.scale a c !! i = Some (x * c).
Proof. intros E. unfold Numpy.scale. rewrite list_lookup_fmap, E. reflexivity. Qed.

Lemma multiply_noise_length (a : list Q) (draws : nat -> Q) :
  length (Numpy.multiply (Numpy.maximum a 0)
            (Numpy.random_normal draws (length (Numpy.maximum a 0))))
  = length a.
Proof.
  unfold Numpy.multiply, Numpy.random_normal, Numpy.maximum.
  rewrite length_zip_with, !length_fmap, length_seq. lia.
Qed.

(** ** The predictor *)

Lemma validate_predictions_equal_length (predictions actual_prices : list Q) :
  length predictions = length actual_prices ->
  PredictionService._validate_predictions predictions actual_prices
  = Py.Ok (Numpy.clip predictions (Numpy.scale actual_prices 0.5)
             (Numpy.scale actual_prices 1.5)).
Proof.
  intros E. unfold PredictionService._validate_predictions.
  destruct (decide (length predictions ≠ length actual_prices)) as [N|_];
    [contradiction|reflexivity].
Qed.

Section Predictor.
Import Pandas Sklearn PredictionService.
Context `{Library}.

Lemma set_column_prices (df df' : DataFrame) col dt vals :
  set_column df col dt vals = Py.Ok df' -> price_values df' = price_values df.
Proof.
  unfold set_column. destruct (decide _); intros [= <-]. reflexivity.
Qed.

Lemma impute_numeric_prices (features : list string) (df df' : DataFrame) :
  impute_numeric df features = Py.Ok df' -> price_values df' = price_values df.
Proof.
  revert df. induction features as [|col rest IH]; intros df; cbn.
  - intros [= <-]. reflexivity.
  - destruct (get_column df col) as [s|e]; cbn; [|discriminate].
    destruct (isnull_any s).
    + destruct (numeric_imputer_fit_transform (values s)) as [imputed|e];
        cbn; [|discriminate].
      destruct (set_column df col float64 imputed) as [df1|e] eqn:S;
        cbn; [|discriminate].
      intros E. rewrite (IH _ E). eapply set_column_prices, S.
    + cbn. apply IH.
Qed.

Lemma impute_categorical_prices (features : list string) (df df' : DataFrame) :
  impute_categorical df features = Py.Ok df' ->
  price_values df' = price_values df.
Proof.
  revert df. induction features as [|col rest IH]; intros df; cbn.
  - intros [= <-]. reflexivity.
  - destruct (get_column df col) as [s|e]; cbn; [|discriminate].
    destruct (isnull_any s).
    + destruct (categorical_imputer_fit_transform (values s)) as [imputed|e];
        cbn; [|discriminate].
      destruct (set_column df col object imputed) as [df1|e] eqn:S;
        cbn; [|discriminate].
      destruct (get_column df1 col) as [s1|e]; cbn; [|discriminate].
      intros E. rewrite (IH _ E). cbn. eapply set_column_prices, S.
    + cbn. apply IH.
Qed.

Lemma impute_missing_with_prices (df df' : DataFrame)
    (numeric categorical : list string) :
  impute_missing_with df numeric categorical = Py.Ok df' ->
  price_values df' = price_values df.
Proof.
  unfold impute_missing_with. intros E.
  assert (N : exists df1,
             price_values df1 = price_values df
             /\ match categorical with
                | [] => Py.Ok df1
                | _ => impute_categorical df1 categorical
                end = Py.Ok df').
  { destruct numeric as [|c cs].
    - exists df. split; [reflexivity|exact E].
    - destruct (impute_numeric df (c :: cs)) as [df1|e] eqn:I;
        [|discriminate].
      exists df1. split; [eapply impute_numeric_prices, I|exact E]. }
  destruct N as (df1 & P1 & E1). rewrite <- P1.
  destruct categorical as [|c cs].
  - injection E1 as <-. reflexivity.
  - eapply impute_categorical_prices, E1.
Qed.

(** The [try] block, once a regressor is loaded and the first three
    stages have gone through. *)
Lemma predict_fair_price_body_stages (self : PredictionService)
    (regressor : Regressor) (properties_df df : DataFrame) (X_pca : matrix)
    (draws : nat -> Q) :
  model self = Some regressor ->
  impute_missing_with properties_df (numeric_features properties_df)
    (categorical_features properties_df) = Py.Ok df ->
  PcaWorkflow.convert_x_to_pca df (numeric_features properties_df)
    (categorical_features properties_df) = Py.Ok X_pca ->
  predict_fair_price_body self properties_df draws
  = (let* predictions := regressor X_pca in
     if decide (length predictions ≠ len properties_df)
     then Py.Raise Py.ValueError
     else
       let jittered :=
         Numpy.multiply (Numpy.maximum predictions 0)
           (Numpy.random_normal draws (length (Numpy.maximum predictions 0))) in
       Py.Ok (Numpy.clip jittered
                (Numpy.scale (price_values properties_df) 0.5)
                (Numpy.scale (price_values properties_df) 1.5))).
Proof.
  intros M I C. unfold predict_fair_price_body. rewrite M, I. cbn.
  rewrite C. cbn.
  destruct (regressor X_pca) as [predictions|e]; [|reflexivity]. cbn.
  assert (L : len df = len properties_df).
  { unfold len. f_equal. eapply impute_missing_with_prices, I. }
  rewrite L.
  destruct (decide (length predictions ≠ len properties_df)) as [N|E];
    [reflexivity|].
  rewrite validate_predictions_equal_length; [reflexivity|].
  rewrite multiply_noise_length. unfold len in E.
  destruct (decide (length predictions = length (price_values properties_df)));
    [assumption|contradiction].
Qed.

(** The [try] block raises exactly when one of its stages does. *)
Lemma predict_fair_price_body_raises (self : PredictionService)
    (regressor : Regressor) (properties_df : DataFrame) (draws : nat -> Q) :
  model self = Some regressor ->
  (exists e, predict_fair_price_body self properties_df draws = Py.Raise e)
  <-> stage_throws regressor properties_df.
Proof.
  intros M. split.
  - intros [e E].
    destruct (impute_missing_with properties_df (numeric_features properties_df)
                (categorical_features properties_df)) as [df|e1] eqn:I;
      [|eapply imputation_throws, I].
    destruct (PcaWorkflow.convert_x_to_pca df (numeric_features properties_df)
                (categorical_features properties_df)) as [X_pca|e2] eqn:C;
      [|eapply reducer_throws; eassumption].
    rewrite (predict_fair_price_body_stages _ _ _ _ _ _ M I C) in E.
    destruct (regressor X_pca) as [predictions|e3] eqn:R;
      [|eapply regressor_throws; eassumption].
    cbn in E.
    destruct (decide (length predictions ≠ len properties_df)) as [N|_];
      [|discriminate].
    eapply length_check_throws; eassumption.
  - intros [e I | df e I C | df X_pca e I C R | df X_pca predictions I C R N].
    + exists e. unfold predict_fair_price_body. rewrite M, I. reflexivity.
    + exists e. unfold predict_fair_price_body. rewrite M, I. cbn.
      rewrite C. reflexivity.
    + exists e. rewrite (predict_fair_price_body_stages _ _ _ _ _ _ M I C), R.
      reflexivity.
    + exists Py.ValueError.
      rewrite (predict_fair_price_body_stages _ _ _ _ _ _ M I C), R. cbn.
      destruct (decide (length predictions ≠ len properties_df));
        [reflexivity|contradiction].
Qed.

(** Every call answers the prices themselves or a clamped array. *)
Lemma predict_fair_price_outcome (self : PredictionService)
    (properties_df : DataFrame) (draws : nat -> Q) :
  predict_fair_price self properties_df draws
  = Py.Ok (price_values properties_df)
  \/ exists raw,
       length raw = len properties_df
       /\ predict_fair_price self properties_df draws
          = Py.Ok (Numpy.clip raw
                     (Numpy.scale (price_values properties_df) 0.5)
                     (Numpy.scale (price_values properties_df) 1.5)).
Proof.
  unfold predict_fair_price.
  destruct (predict_fair_price_body self properties_df draws) as [out|e] eqn:B;
    [|left; reflexivity].
  cbn. destruct (model self) as [regressor|] eqn:M.
  - destruct (impute_missing_with properties_df (numeric_features properties_df)
                (categorical_features properties_df)) as [df|e1] eqn:I.
    2:{ unfold predict_fair_price_body in B. rewrite M, I in B. discriminate. }
    destruct (PcaWorkflow.convert_x_to_pca df (numeric_features properties_df)
                (categorical_features properties_df)) as [X_pca|e2] eqn:C.
    2:{ unfold predict_fair_price_body in B. rewrite M, I in B. cbn in B.
        rewrite C in B. discriminate. }
    rewrite (predict_fair_price_body_stages _ _ _ _ _ _ M I C) in B.
    destruct (regressor X_pca) as [predictions|e3]; [|discriminate].
    cbn in B.
    destruct (decide (length predictions ≠ len properties_df)) as [N|E];
      [discriminate|].
    injection B as <-. right. eexists. split; [|reflexivity].
    rewrite multiply_noise_length.
    destruct (decide (length predictions = len properties_df));
      [assumption|contradiction].
  - unfold predict_fair_price_body in B. rewrite M in B. left.
    symmetry. exact B.
Qed.

End Predictor.

(** C1, as the code has it: for every record with price > 0 the fair price
    that [predict_fair_price] answers lies in [0.5 * price, 1.5 * price],
    whatever the library calls, the regressor and the jitter draws do; on
    the path where every stage goes through, the answer is the clamp of the
    jittered predictions, so the clamp comes last.  The fair price of
    [create_db.calculate_fair_price] is not clamped: it is the mean of price
    and zestimate, within the bounds exactly when 0 <= zestimate <=
    2 * price, and the price itself when there is no zestimate. *)
Theorem fair_price_bounds :
  (forall (lib : Sklearn.Library) (self : PredictionService.PredictionService)
          (properties_df : Pandas.DataFrame) (draws : nat -> Q) (i : nat) (p : Q),
     Pandas.price_values properties_df !! i = Some p -> 0 < p ->
     exists out f,
       PredictionService.predict_fair_price self properties_df draws = Py.Ok out
       /\ length out = Pandas.len properties_df
       /\ out !! i = Some f
       /\ 0.5 * p <= f <= 1.5 * p)
  /\ (forall (lib : Sklearn.Library) (self : PredictionService.PredictionService)
             (regressor : Sklearn.Regressor)
             (properties_df df : Pandas.DataFrame) (X_pca : Sklearn.matrix)
             (predictions : list Q) (draws : nat -> Q),
        PredictionService.model self = Some regressor ->
        PredictionService.impute_missing_with properties_df
          (PredictionService.numeric_features properties_df)
          (PredictionService.categorical_features properties_df) = Py.Ok df ->
        PcaWorkflow.convert_x_to_pca df
          (PredictionService.numeric_features properties_df)
          (PredictionService.categorical_features properties_df) = Py.Ok X_pca ->
        regressor X_pca = Py.Ok predictions ->
        length predictions = Pandas.len properties_df ->
        let jittered :=
          Numpy.multiply (Numpy.maximum predictions 0)
            (Numpy.random_normal draws (length (Numpy.maximum predictions 0))) in
        PredictionService.predict_fair_price self properties_df draws
        = Py.Ok (Numpy.clip jittered
                   (Numpy.scale (Pandas.price_values properties_df) 0.5)
                   (Numpy.scale (Pandas.price_values properties_df) 1.5)))
  /\ (forall row : CreateDb.Row,
        0 < CreateDb.row_price row ->
        match CreateDb.row_zestimate row with
        | Some z =>
            CreateDb.calculate_fair_price row == (CreateDb.row_price row + z) / 2
            /\ (0.5 * CreateDb.row_price row <= CreateDb.calculate_fair_price row
                  <= 1.5 * CreateDb.row_price row
                <-> 0 <= z <= 2 * CreateDb.row_price row)
        | None =>
            CreateDb.calculate_fair_price row = CreateDb.row_price row
            /\ 0.5 * CreateDb.row_price row <= CreateDb.calculate_fair_price row
               <= 1.5 * CreateDb.row_price row
        end).
Proof.
  split; [|split].
  - intros lib self properties_df draws i p Ei Pos.
    destruct (predict_fair_price_outcome self properties_df draws)
      as [E | (raw & Len & E)].
    + exists (Pandas.price_values properties_df), p.
      split; [exact E|]. split; [reflexivity|]. split; [exact Ei|].
      split; lra.
    + assert (Ir : is_Some (raw !! i)).
      { apply lookup_lt_is_Some. rewrite Len. unfold Pandas.len.
        eapply lookup_lt_Some, Ei. }
      destruct Ir as [x Ex].
      eexists. exists (Numpy.clip1 x (p * 0.5) (p * 1.5)).
      split; [exact E|]. split.
      { rewrite <- Len.
        apply clip_length; unfold Numpy.scale; rewrite length_fmap;
          symmetry; exact Len. }
      split.
      { apply clip_lookup; [exact Ex | |]; apply scale_lookup, Ei. }
      pose proof (clip1_within x (p * 0.5) (p * 1.5)) as B.
      destruct B as [Bl Bu]; [lra|]. split; lra.
  - intros lib self regressor properties_df df X_pca predictions draws M I C R L.
    cbv zeta. unfold PredictionService.predict_fair_price.
    rewrite (predict_fair_price_body_stages _ _ _ _ _ _ M I C), R. cbn.
    destruct (decide (length predictions ≠ Pandas.len properties_df));
      [contradiction|reflexivity].
  - intros [pr [z|]] Pos; unfold CreateDb.calculate_fair_price; cbn in *.
    + split; [reflexivity|].
      unfold Qdiv. change (/ 2) with (1 # 2). split; intros [A B]; split; lra.
    + split; [reflexivity|]. split; lra.
Qed.

(** The flat batch has no missing value and passes the projection. *)
Lemma flat_batch_imputed :
  PredictionService.impute_missing_with (H := toy_library) flat_batch
    (PredictionService.numeric_features flat_batch)
    (PredictionService.categorical_features flat_batch)
  = Py.Ok flat_batch.
Proof. vm_compute. reflexivity. Qed.

Lemma flat_batch_reduced :
  PcaWorkflow.convert_x_to_pca (H := toy_library) flat_batch
    (PredictionService.numeric_features flat_batch)
    (PredictionService.categorical_features flat_batch)
  = Py.Ok flat_batch_projected.
Proof. vm_compute. reflexivity. Qed.

Lemma fair_price_bounds_witness :
  (exists out f,
     PredictionService.predict_fair_price (H := toy_library)
       (loaded (constant_regressor 1000)) wide_batch steady_draws = Py.Ok out
     /\ length out = Pandas.len wide_batch
     /\ out !! 0%nat = Some f
     /\ 0.5 * 100 <= f <= 1.5 * 100)
  /\ PredictionService.predict_fair_price (H := toy_library)
       (loaded (constant_regressor 1000)) flat_batch steady_draws
     = Py.Ok (Numpy.clip
                (Numpy.multiply (Numpy.maximum (replicate 90 1000) 0)
                   (Numpy.random_normal steady_draws
                      (length (Numpy.maximum (replicate 90 1000) 0))))
                (Numpy.scale (Pandas.price_values flat_batch) 0.5)
                (Numpy.scale (Pandas.price_values flat_batch) 1.5))
  /\ (0.5 * 100 <= CreateDb.calculate_fair_price plain_row <= 1.5 * 100
      <-> 0 <= 110 <= 2 * 100).
Proof.
  split; [|split].
  - apply (proj1 fair_price_bounds toy_library (loaded (constant_regressor 1000))
             wide_batch steady_draws 0%nat 100); reflexivity.
  - apply (proj1 (proj2 fair_price_bounds) toy_library
             (loaded (constant_regressor 1000)) (constant_regressor 1000)
             flat_batch flat_batch flat_batch_projected (replicate 90 1000)
             steady_draws);
      [reflexivity | exact flat_batch_imputed | exact flat_batch_reduced
      | reflexivity | reflexivity].
  - apply (proj2 (proj2 (proj2 fair_price_bounds) plain_row ltac:(reflexivity))).
Defined.

(** On a batch that passes the projection, a regressor answering 1000 per
    listing is clamped to one and a half times each price, and one answering
    a negative number to half of it. *)
Example predict_fair_price_clamps :
  match PredictionService.predict_fair_price (H := toy_library)
          (loaded (constant_regressor 1000)) wide_batch steady_draws,
        PredictionService.predict_fair_price (H := toy_library)
          (loaded (constant_regressor (-5))) wide_batch steady_draws
  with
  | Py.Ok high, Py.Ok low =>
      Qred <$> take 3 high = [150; 303 # 2; 153]
      /\ Qred <$> take 3 low = [50; 101 # 2; 51]
  | _, _ => False
  end.
Proof. vm_compute. split; reflexivity. Qed.

(** C1 as worded fails for the fair price that [create_db] stores: a row
    priced 100 with a zestimate of 300 gets (100 + 300) / 2 = 200, above
    1.5 * 100. *)
Lemma calculate_fair_price_unclamped :
  0 < CreateDb.row_price hot_market_row
  /\ CreateDb.calculate_fair_price hot_market_row == 200
  /\ ~ (0.5 * CreateDb.row_price hot_market_row
        <= CreateDb.calculate_fair_price hot_market_row
        <= 1.5 * CreateDb.row_price hot_market_row).
Proof.
  split; [reflexivity|]. split; [reflexivity|].
  intros [_ U]. vm_compute in U. congruence.
Qed.

(** What the [except] branch does with a raising [try] block. *)
Lemma predict_fair_price_catches (lib : Sklearn.Library)
    (self : PredictionService.PredictionService)
    (properties_df : Pandas.DataFrame) (draws : nat -> Q) (e : Py.exn) :
  PredictionService.predict_fair_price_body self properties_df draws = Py.Raise e ->
  PredictionService.predict_fair_price self properties_df draws
  = Py.Ok (Pandas.price_values properties_df).
Proof.
  intros B. unfold PredictionService.predict_fair_price. rewrite B. reflexivity.
Qed.

Lemma stage_throws_fallback (lib : Sklearn.Library)
    (self : PredictionService.PredictionService)
    (regressor : Sklearn.Regressor)
    (properties_df : Pandas.DataFrame) (draws : nat -> Q) :
  PredictionService.model self = Some regressor ->
  PredictionService.stage_throws regressor properties_df ->
  PredictionService.predict_fair_price self properties_df draws
  = Py.Ok (Pandas.price_values properties_df).
Proof.
  intros M T.
  apply (predict_fair_price_body_raises self regressor properties_df draws M)
    in T as [e B].
  apply (predict_fair_price_catches lib self properties_df draws e B).
Qed.

(** C3: [predict_fair_price] always returns; when the model failed to load,
    or when a stage of the pipeline raises (imputation, the PCA manager,
    the regressor, the check of the number of predictions), it returns the
    input prices unchanged. *)
Theorem predict_fair_price_fallback (lib : Sklearn.Library)
    (self : PredictionService.PredictionService)
    (properties_df : Pandas.DataFrame) (draws : nat -> Q) :
  (exists out,
     PredictionService.predict_fair_price self properties_df draws = Py.Ok out
     /\ length out = Pandas.len properties_df)
  /\ (PredictionService.model self = None ->
      PredictionService.predict_fair_price self properties_df draws
      = Py.Ok (Pandas.price_values properties_df))
  /\ (forall load_error : Py.exn,
        PredictionService.predict_fair_price
          (PredictionService.init (Py.Raise load_error)) properties_df draws
        = Py.Ok (Pandas.price_values properties_df))
  /\ (forall regressor : Sklearn.Regressor,
        PredictionService.model self = Some regressor ->
        PredictionService.stage_throws regressor properties_df ->
        PredictionService.predict_fair_price self properties_df draws
        = Py.Ok (Pandas.price_values properties_df))
  /\ (forall e : Py.exn,
        PredictionService.predict_fair_price_body self properties_df draws
        = Py.Raise e ->
        PredictionService.predict_fair_price self properties_df draws
        = Py.Ok (Pandas.price_values properties_df)).
Proof.
  split; [|split; [|split; [|split]]].
  - destruct (predict_fair_price_outcome self properties_df draws)
      as [E | (raw & Len & E)].
    + eexists. split; [exact E|reflexivity].
    + eexists. split; [exact E|]. rewrite <- Len.
      apply clip_length; unfold Numpy.scale; rewrite length_fmap;
        symmetry; exact Len.
  - intros M. unfold PredictionService.predict_fair_price,
      PredictionService.predict_fair_price_body. rewrite M. reflexivity.
  - intros load_error. reflexivity.
  - intros regressor. apply stage_throws_fallback.
  - intros e. apply predict_fair_price_catches.
Qed.

Lemma predict_fair_price_fallback_witness :
  PredictionService.predict_fair_price (H := toy_library)
    unloaded small_batch steady_draws = Py.Ok [100; 250; 400]
  /\ PredictionService.predict_fair_price (H := toy_library)
       (loaded failing_regressor) flat_batch steady_draws
     = Py.Ok (Pandas.price_values flat_batch).
Proof.
  split.
  - apply (proj1 (proj2 (predict_fair_price_fallback toy_library unloaded
                           small_batch steady_draws))).
    reflexivity.
  - apply (proj1 (proj2 (proj2 (proj2
             (predict_fair_price_fallback toy_library
                (loaded failing_regressor) flat_batch steady_draws))))
             failing_regressor eq_refl).
    apply (PredictionService.regressor_throws (H := toy_library)
             failing_regressor flat_batch flat_batch flat_batch_projected
             Py.ValueError);
      [exact flat_batch_imputed | exact flat_batch_reduced | reflexivity].
Defined.

(** ** The dimensionality reducer *)

Lemma narrow_matrix_rejected (lib : Sklearn.Library) (encoded : Sklearn.matrix) :
  Sklearn.pca_shape_rule lib ->
  (Sklearn.n_features encoded < 90)%nat ->
  Sklearn.pca_fit_transform 90 encoded = Py.Raise Py.ValueError.
Proof.
  intros Rule W. apply Rule.
  pose proof (Nat.le_min_r (Sklearn.n_samples encoded) (Sklearn.n_features encoded)).
  lia.
Qed.

Lemma toy_library_shape_rule : Sklearn.pca_shape_rule toy_library.
Proof.
  intros n m L. cbn.
  destruct (decide (n ≤ Nat.min (Sklearn.n_samples m) (Sklearn.n_features m))%nat);
    [lia|reflexivity].
Qed.

(** C4, as the code has it: on an input whose encoded width is below 90 the
    reducer does raise and does not return fewer components, but the error
    is the [ValueError] of the library's PCA, asked for 90 components; the
    code makes no check of its own and has no [InsufficientFeaturesError].
    A matrix is only ever returned for an encoding of at least 90 columns.
    [predict_fair_price] catches the error and answers the input prices. *)
Theorem convert_x_to_pca_narrow_raises (lib : Sklearn.Library)
    (x : Pandas.DataFrame) (numeric categorical : list string) :
  Sklearn.pca_shape_rule lib ->
  (forall (X1 X2 : Pandas.DataFrame) (encoded : Sklearn.matrix),
     PcaWorkflow.fill_numeric x numeric = Py.Ok X1 ->
     PcaWorkflow.fill_categorical X1 categorical = Py.Ok X2 ->
     Sklearn.preprocessor_fit_transform X2 numeric categorical = Py.Ok encoded ->
     (Sklearn.n_features encoded < 90)%nat ->
     PcaWorkflow.convert_x_to_pca x numeric categorical = Py.Raise Py.ValueError
     /\ PcaWorkflow.convert_x_to_pca x numeric categorical
        <> Py.Raise (Py.OtherError "InsufficientFeaturesError")
     /\ (forall (self : PredictionService.PredictionService)
                (regressor : Sklearn.Regressor)
                (properties_df : Pandas.DataFrame) (draws : nat -> Q),
           PredictionService.model self = Some regressor ->
           numeric = PredictionService.numeric_features properties_df ->
           categorical = PredictionService.categorical_features properties_df ->
           PredictionService.impute_missing_with properties_df numeric categorical
           = Py.Ok x ->
           PredictionService.predict_fair_price self properties_df draws
           = Py.Ok (Pandas.price_values properties_df)))
  /\ (forall reduced : Sklearn.matrix,
        PcaWorkflow.convert_x_to_pca x numeric categorical = Py.Ok reduced ->
        exists (X2 : Pandas.DataFrame) (encoded : Sklearn.matrix),
          Sklearn.preprocessor_fit_transform X2 numeric categorical = Py.Ok encoded
          /\ (90 <= Sklearn.n_features encoded)%nat
          /\ (90 <= Sklearn.n_samples encoded)%nat
          /\ Sklearn.pca_fit_transform 90 encoded = Py.Ok reduced).
Proof.
  intros Rule. split.
  - intros X1 X2 encoded F1 F2 E W.
    assert (C : PcaWorkflow.convert_x_to_pca x numeric categorical
                = Py.Raise Py.ValueError).
    { unfold PcaWorkflow.convert_x_to_pca. rewrite F1. cbn. rewrite F2. cbn.
      rewrite E. cbn. apply (narrow_matrix_rejected lib encoded Rule W). }
    split; [exact C|]. split; [rewrite C; discriminate|].
    intros self regressor properties_df draws M -> -> I.
    apply (stage_throws_fallback lib self regressor _ draws M).
    eapply PredictionService.reducer_throws; [exact I|exact C].
  - intros reduced. unfold PcaWorkflow.convert_x_to_pca.
    destruct (PcaWorkflow.fill_numeric x numeric) as [X1|e]; cbn; [|discriminate].
    destruct (PcaWorkflow.fill_categorical X1 categorical) as [X2|e]; cbn;
      [|discriminate].
    destruct (Sklearn.preprocessor_fit_transform X2 numeric categorical)
      as [encoded|e] eqn:E; cbn; [|discriminate].
    intros P. exists X2, encoded. split; [exact E|].
    destruct (Nat.le_gt_cases 90
                (Nat.min (Sklearn.n_samples encoded) (Sklearn.n_features encoded)))
      as [Wide|Narrow].
    + pose proof (Nat.le_min_r (Sklearn.n_samples encoded)
                    (Sklearn.n_features encoded)).
      pose proof (Nat.le_min_l (Sklearn.n_samples encoded)
                    (Sklearn.n_features encoded)).
      split; [lia|]. split; [lia|exact P].
    + unfold PcaWorkflow.n_components in P.
      rewrite (Rule 90%nat encoded Narrow) in P. discriminate.
Qed.

Lemma convert_x_to_pca_narrow_raises_witness :
  PcaWorkflow.convert_x_to_pca (H := toy_library) small_batch_imputed
    ["livingArea"; "bedrooms"]%string ["city"]%string
  = Py.Raise Py.ValueError
  /\ PredictionService.predict_fair_price (H := toy_library)
       (loaded (constant_regressor 1000)) small_batch steady_draws
     = Py.Ok [100; 250; 400].
Proof.
  destruct (proj1 (convert_x_to_pca_narrow_raises toy_library small_batch_imputed
                     ["livingArea"; "bedrooms"]%string ["city"]%string
                     toy_library_shape_rule)
              small_batch_imputed small_batch_imputed small_batch_encoded
              eq_refl eq_refl eq_refl ltac:(cbn; lia))
    as (C & _ & F).
  split; [exact C|].
  apply (F (loaded (constant_regressor 1000)) (constant_regressor 1000)
           small_batch steady_draws);
    reflexivity.
Defined.

(** C4 as worded fails: on a batch that encodes to 5 columns, the reducer
    run against a PCA that rejects such input as scikit-learn does raises
    that [ValueError], not an [InsufficientFeaturesError]. *)
Lemma convert_x_to_pca_not_as_stated :
  Sklearn.preprocessor_fit_transform (Library := toy_library) small_batch_imputed
    ["livingArea"; "bedrooms"]%string ["city"]%string
  = Py.Ok small_batch_encoded
  /\ Sklearn.n_features small_batch_encoded = 5%nat
  /\ PcaWorkflow.convert_x_to_pca (H := toy_library) small_batch_imputed
       ["livingArea"; "bedrooms"]%string ["city"]%string
     = Py.Raise Py.ValueError
  /\ PcaWorkflow.convert_x_to_pca (H := toy_library) small_batch_imputed
       ["livingArea"; "bedrooms"]%string ["city"]%string
     <> Py.Raise (Py.OtherError "InsufficientFeaturesError").
Proof.
  repeat match goal with |- _ /\ _ => split end; try reflexivity.
  intros E. vm_compute in E. discriminate.
Qed.

(** * Further properties of the code *)

Import MoreExamples.

(** ** Ranges of the sub-scores *)

Lemma py_min_le_l (a b : Q) : Py.min a b <= a.
Proof. rewrite py_min_Qmin. apply Q.le_min_l. Qed.

Lemma py_min_le_r (a b : Q) : Py.min a b <= b.
Proof. rewrite py_min_Qmin. apply Q.le_min_r. Qed.

Lemma py_min_glb (a b c : Q) : c <= a -> c <= b -> c <= Py.min a b.
Proof. intros A B. rewrite py_min_Qmin. apply Q.min_glb; assumption. Qed.

Lemma py_max_ge_l (a b : Q) : a <= Py.max a b.
Proof. rewrite py_max_Qmax. apply Q.le_max_l. Qed.

Lemma py_max_ge_r (a b : Q) : b <= Py.max a b.
Proof. rewrite py_max_Qmax. apply Q.le_max_r. Qed.

Lemma py_max_lub (a b c : Q) : a <= c -> b <= c -> Py.max a b <= c.
Proof. intros A B. rewrite py_max_Qmax. apply Q.max_lub; assumption. Qed.

(** The ROI score of a listing with a rent estimate and a non-zero price,
    a zero rent included. *)
Lemma roi_score_formula (p : Property) (rent : Q) :
  rent_estimate p = Some rent -> ~ price p == 0 ->
  ScoringService.calculate_roi_score p == Qmin 10 (rent * (72000 # 100) / price p).
Proof.
  intros E Hp. unfold ScoringService.calculate_roi_score. rewrite E.
  pose proof Hp as Tp. apply truthy_true in Tp. rewrite Tp.
  destruct (Py.truthy rent) eqn:Tr; cbn [negb orb].
  - rewrite py_min_Qmin. apply Q.min_compat; [reflexivity|]. field. exact Hp.
  - apply truthy_false in Tr. rewrite Tr.
    assert (Z : 0 * (72000 # 100) / price p == 0) by (field; exact Hp).
    rewrite Z. symmetry. apply Q.min_r. discriminate.
Qed.

Lemma roi_score_le_10 (p : Property) : ScoringService.calculate_roi_score p <= 10.
Proof.
  unfold ScoringService.calculate_roi_score.
  destruct (rent_estimate p) as [rent|]; [|discriminate].
  destruct (negb (Py.truthy rent) || negb (Py.truthy (price p)));
    [discriminate|]. apply py_min_le_l.
Qed.

(** X1: the ROI score never exceeds 10, is not negative for a positive
    price and a non-negative rent estimate, and for a fixed positive price
    a higher rent estimate never gives a lower score. *)
Theorem calculate_roi_score_capped_monotone :
  (forall p : Property, ScoringService.calculate_roi_score p <= 10)
  /\ (forall (p : Property) (rent : Q),
        rent_estimate p = Some rent -> 0 <= rent -> 0 < price p ->
        0 <= ScoringService.calculate_roi_score p)
  /\ (forall (p q : Property) (rent rent' : Q),
        price q = price p -> 0 < price p ->
        rent_estimate p = Some rent -> rent_estimate q = Some rent' ->
        rent <= rent' ->
        ScoringService.calculate_roi_score p
        <= ScoringService.calculate_roi_score q).
Proof.
  split; [exact roi_score_le_10|]. split.
  - intros p rent E R Pos.
    rewrite (roi_score_formula p rent E) by lra.
    apply Q.min_glb; [discriminate|].
    apply Qle_shift_div_l; [exact Pos|]. lra.
  - intros p q rent rent' Ep Pos E E' L.
    rewrite (roi_score_formula p rent E) by lra.
    rewrite (roi_score_formula q rent' E') by (rewrite Ep; lra).
    rewrite Ep. apply Q.min_le_compat_l.
    apply Qmult_le_compat_r; [lra|].
    apply Qlt_le_weak, Qinv_lt_0_compat, Pos.
Qed.

Lemma calculate_roi_score_capped_monotone_witness :
  0 <= ScoringService.calculate_roi_score rented
  /\ ScoringService.calculate_roi_score rented
     <= ScoringService.calculate_roi_score rented_more.
Proof.
  split.
  - apply (proj1 (proj2 calculate_roi_score_capped_monotone) rented 1500);
      reflexivity || discriminate.
  - apply (proj2 (proj2 calculate_roi_score_capped_monotone)
             rented rented_more 1500 1800);
      reflexivity || discriminate.
Defined.

(** X2: the ROI score is the handler's cap rate capped at 10, and the
    dataclass' [cap_rate], which deducts 10 percent instead of 40, is
    defined exactly when the rent estimate is present and rent and price are
    non-zero; it is then one and a half times the handler's figure. *)
Theorem cap_rates_agree (p : Property) :
  ScoringService.calculate_roi_score p
  = Py.min 10 (PropertyHandlers._calculate_cap_rate p)
  /\ (PropertyModel.cap_rate p = None
      <-> (rent_estimate p = None
           \/ (exists rent, rent_estimate p = Some rent /\ rent == 0)
           \/ price p == 0))
  /\ (forall c, PropertyModel.cap_rate p = Some c ->
      c == (3 # 2) * PropertyHandlers._calculate_cap_rate p
      /\ ScoringService.calculate_roi_score p == Qmin 10 ((2 # 3) * c)).
Proof.
  unfold ScoringService.calculate_roi_score, PropertyHandlers._calculate_cap_rate,
    PropertyModel.cap_rate.
  destruct (rent_estimate p) as [rent|].
  - destruct (Py.truthy rent) eqn:Tr, (Py.truthy (price p)) eqn:Tp;
      cbn [negb orb andb].
    + apply truthy_true in Tr, Tp. split; [reflexivity|]. split.
      * split; [discriminate|].
        intros [N | [(r & [= <-] & Z) | Z]];
          [discriminate | contradiction | contradiction].
      * intros c [= <-]. split; [field; exact Tp|].
        rewrite py_min_Qmin. apply Q.min_compat; [reflexivity|].
        field. exact Tp.
    + apply truthy_false in Tp. split; [reflexivity|]. split.
      * split; [intros _; right; right; exact Tp | reflexivity].
      * discriminate.
    + apply truthy_false in Tr. split; [reflexivity|]. split.
      * split; [intros _; right; left; exists rent; split; [reflexivity|exact Tr]
               | reflexivity].
      * discriminate.
    + apply truthy_false in Tr. split; [reflexivity|]. split.
      * split; [intros _; right; left; exists rent; split; [reflexivity|exact Tr]
               | reflexivity].
      * discriminate.
  - split; [reflexivity|]. split.
    + split; [intros _; left; reflexivity | reflexivity].
    + discriminate.
Qed.

Lemma cap_rates_agree_witness :
  (16200000 # 2000000) == (3 # 2) * PropertyHandlers._calculate_cap_rate rented
  /\ ScoringService.calculate_roi_score rented
     == Qmin 10 ((2 # 3) * (16200000 # 2000000)).
Proof.
  apply (proj2 (proj2 (cap_rates_agree rented)) (16200000 # 2000000)).
  reflexivity.
Defined.

(** X3: the price per square foot is defined exactly when living area and
    price are both non-zero, and multiplied by the living area it gives the
    price back. *)
Theorem price_per_sqft_round_trip (p : Property) :
  (PropertyModel.price_per_sqft p = None
   <-> (living_area p == 0 \/ price p == 0))
  /\ (forall x, PropertyModel.price_per_sqft p = Some x ->
      x * living_area p == price p).
Proof.
  unfold PropertyModel.price_per_sqft.
  destruct (Py.truthy (living_area p)) eqn:Ta, (Py.truthy (price p)) eqn:Tp;
    cbn [andb].
  - apply truthy_true in Ta, Tp. split.
    + split; [discriminate|]. intros [Z|Z]; contradiction.
    + intros x [= <-]. field. exact Ta.
  - apply truthy_false in Tp. split; [|discriminate].
    split; [intros _; right; exact Tp | reflexivity].
  - apply truthy_false in Ta. split; [|discriminate].
    split; [intros _; left; exact Ta | reflexivity].
  - apply truthy_false in Ta. split; [|discriminate].
    split; [intros _; left; exact Ta | reflexivity].
Qed.

Lemma price_per_sqft_round_trip_witness :
  (200000 # 1500) * living_area rented == price rented.
Proof.
  apply (proj2 (price_per_sqft_round_trip rented) (200000 # 1500)).
  reflexivity.
Defined.

Lemma mean_pair_bounds (a b lo hi : Q) :
  lo <= a + b -> a + b <= hi -> lo / 2 <= Py.mean [a; b] <= hi / 2.
Proof.
  intros L U. rewrite mean_pair. unfold Qdiv. change (/ 2) with (1 # 2).
  split; lra.
Qed.

Lemma clipped_factor_range (f : Q) : 8 <= 10 * Py.min 1.2 (Py.max 0.8 f) <= 12.
Proof.
  pose proof (py_min_le_l 1.2 (Py.max 0.8 f)) as U.
  pose proof (py_min_glb 1.2 (Py.max 0.8 f) 0.8) as L.
  pose proof (py_max_ge_l 0.8 f) as M.
  assert (L' : 0.8 <= Py.min 1.2 (Py.max 0.8 f)) by (apply L; [discriminate|lra]).
  split; lra.
Qed.

Lemma condition_score_range (p : Property) :
  0 <= ScoringService.calculate_condition_score p
  /\ (match year_built p with
      | Some year => (year <= 2024)%Z
      | None => True
      end -> ScoringService.calculate_condition_score p <= 11).
Proof.
  unfold ScoringService.calculate_condition_score.
  destruct (year_built p) as [year|]; [|split; [discriminate|intros _; discriminate]].
  destruct (Py.truthy_int (Some year)); cbn [negb];
    [|split; [discriminate|intros _; discriminate]].
  set (age_score := Py.max 0 (10 - inject_Z (2024 - year) / 10)).
  assert (A0 : 0 <= age_score) by apply py_max_ge_l.
  assert (A10 : (year <= 2024)%Z -> age_score <= 10).
  { intros Y. apply py_max_lub; [discriminate|].
    assert (0 <= inject_Z (2024 - year)).
    { change 0 with (inject_Z 0). rewrite <- Zle_Qle. lia. }
    unfold Qdiv. change (/ 10) with (1 # 10). lra. }
  destruct (zestimate p) as [z|]; [|split; [exact A0|intros Y; specialize (A10 Y); lra]].
  destruct (Py.truthy z && Py.truthy (price p));
    [|split; [exact A0|intros Y; specialize (A10 Y); lra]].
  pose proof (clipped_factor_range (z / price p)) as [C8 C12].
  set (c := 10 * Py.min 1.2 (Py.max 0.8 (z / price p))) in *.
  split.
  - pose proof (mean_pair_bounds age_score c 0 (age_score + c)) as [L _];
      [lra|lra|]. unfold Qdiv in L. change (/ 2) with (1 # 2) in L. lra.
  - intros Y. specialize (A10 Y).
    pose proof (mean_pair_bounds age_score c (age_score + c) 22) as [_ U];
      [lra|lra|]. unfold Qdiv in U. change (/ 2) with (1 # 2) in U. lra.
Qed.

(** X4: the condition score is never negative, and it is at most 11 for a
    listing whose year of construction is missing or not after 2024 (a
    later year is not capped). *)
Theorem calculate_condition_score_range (p : Property) :
  0 <= ScoringService.calculate_condition_score p
  /\ (forall year, year_built p = Some year -> (year <= 2024)%Z ->
      ScoringService.calculate_condition_score p <= 11)
  /\ (year_built p = None -> ScoringService.calculate_condition_score p = 5).
Proof.
  pose proof (condition_score_range p) as [L U].
  split; [exact L|]. split.
  - intros year E Y. apply U. rewrite E. exact Y.
  - intros E. unfold ScoringService.calculate_condition_score. rewrite E.
    reflexivity.
Qed.

Lemma calculate_condition_score_range_witness :
  ScoringService.calculate_condition_score scenario <= 11.
Proof.
  apply (proj1 (proj2 (calculate_condition_score_range scenario)) 2000%Z);
    [reflexivity | lia].
Defined.

Lemma risk_score_le_8 (p : Property) :
  0 < price p -> ScoringService.calculate_risk_score p <= 8.
Proof.
  intros Pos. pose proof (vacancy_risk_range p) as [Vl Vu].
  unfold ScoringService.calculate_risk_score, ScoringService.risk_factors.
  set (v := ScoringService.vacancy_risk p) in *.
  assert (Two : Py.mean [v; ScoringService.market_risk] <= 8).
  { rewrite mean_pair. unfold ScoringService.market_risk, Qdiv.
    change (/ 2) with (1 # 2). lra. }
  destruct (zestimate p) as [z|]; [|exact Two].
  destruct (Py.truthy z && Py.truthy (price p)); [|exact Two].
  cbn [app]. rewrite mean_triple.
  assert (D : 0 <= Py.abs (z - price p) / price p).
  { apply Qle_shift_div_l; [exact Pos|].
    pose proof (Qabs_nonneg (z - price p)). unfold Py.abs. lra. }
  unfold ScoringService.market_risk, Qdiv in *. change (/ 3) with (1 # 3). lra.
Qed.

(** X5: for a positive price the risk score is at most 8, and without a
    zestimate it lies between 4.5 and 7 whatever the price. *)
Theorem calculate_risk_score_range (p : Property) :
  (0 < price p -> ScoringService.calculate_risk_score p <= 8)
  /\ (zestimate p = None ->
      4.5 <= ScoringService.calculate_risk_score p <= 7).
Proof.
  split; [apply risk_score_le_8|].
  intros E. pose proof (vacancy_risk_range p) as [Vl Vu].
  unfold ScoringService.calculate_risk_score.
  rewrite (risk_factors_without_zestimate p E), mean_pair.
  unfold ScoringService.market_risk, Qdiv. change (/ 2) with (1 # 2).
  split; lra.
Qed.

Lemma calculate_risk_score_range_witness :
  ScoringService.calculate_risk_score scenario <= 8
  /\ 4.5 <= ScoringService.calculate_risk_score land <= 7.
Proof.
  split.
  - apply (proj1 (calculate_risk_score_range scenario)). reflexivity.
  - apply (proj2 (calculate_risk_score_range land)). reflexivity.
Defined.

(** X6: for a positive price and a year of construction that is missing or
    not after 2024, the total score is at most 86. *)
Theorem total_score_at_most_86 (p : Property) :
  0 < price p ->
  match year_built p with
  | Some year => (year <= 2024)%Z
  | None => True
  end ->
  total_score (ScoringService.score_property p) <= 86.
Proof.
  intros Pos Y. rewrite total_score_weighted. cbv zeta.
  cbn [roi_score location_score condition_score market_score risk_score
       ScoringService.score_property].
  pose proof (roi_score_le_10 p) as R.
  pose proof (proj2 (condition_score_range p) Y) as C.
  pose proof (risk_score_le_8 p Pos) as K.
  unfold ScoringService.calculate_location_score,
    ScoringService.calculate_market_score.
  lra.
Qed.

Lemma total_score_at_most_86_witness :
  total_score (ScoringService.score_property scenario) <= 86.
Proof.
  apply (total_score_at_most_86 scenario); [reflexivity | cbn; lia].
Defined.

(** ** The display score *)

(** X7: when the display score is returned for a listing whose year of
    construction is missing or not after 2023, it is at most 10; it is at
    least -10 when rent estimate and zestimate are not negative, and not
    negative when moreover the zestimate is at least the price. *)
Theorem calculate_investment_score_range (p : Property) (score : Q) :
  App.calculate_investment_score p = Py.Ok score ->
  (match year_built p with
   | Some year => (year <= 2023)%Z
   | None => True
   end -> score <= 10)
  /\ (match rent_estimate p with Some rent => 0 <= rent | None => True end ->
      match zestimate p with Some z => 0 <= z | None => True end ->
      -10 <= score
      /\ (match zestimate p with Some z => price p <= z | None => True end ->
          0 <= score)).
Proof.
  unfold App.calculate_investment_score.
  (* the two guarded terms *)
  assert (Cap : exists cap,
    (if Qlt_le_dec 0 (price p)
     then (let* rent := App.number (rent_estimate p) in
           Py.Ok (0 + Py.min (rent * 12 / price p * 40) 4))
     else Py.Ok 0) = cap
    /\ forall c, cap = Py.Ok c ->
       c <= 4
       /\ (match rent_estimate p with Some rent => 0 <= rent | None => True end
           -> 0 <= c)).
  { eexists. split; [reflexivity|].
    destruct (Qlt_le_dec 0 (price p)) as [Pos|_].
    - destruct (rent_estimate p) as [rent|]; cbn; [|discriminate].
      intros c [= <-]. split.
      + pose proof (py_min_le_r (rent * 12 / price p * 40) 4). lra.
      + intros R.
        assert (0 <= rent * 12 / price p * 40).
        { apply Qmult_le_0_compat; [|discriminate].
          apply Qle_shift_div_l; [exact Pos|]. lra. }
        pose proof (py_min_glb (rent * 12 / price p * 40) 4 0). lra.
    - intros c [= <-]. split; [discriminate|intros _; discriminate]. }
  destruct Cap as (cap & -> & Cap).
  destruct cap as [c|e]; [|discriminate]. cbn [Py.bind].
  destruct (Cap c eq_refl) as [C4 C0]. clear Cap.
  assert (App : forall a,
    (if Qlt_le_dec 0 (price p)
     then (let* z := App.number (zestimate p) in
           Py.Ok (c + Py.min ((z - price p) / price p * 10) 3))
     else Py.Ok c) = Py.Ok a ->
    a <= c + 3
    /\ (match zestimate p with Some z => 0 <= z | None => True end
        -> c - 10 <= a
           /\ (match zestimate p with Some z => price p <= z | None => True end
               -> c <= a))).
  { intros a. destruct (Qlt_le_dec 0 (price p)) as [Pos|_].
    - destruct (zestimate p) as [z|]; cbn; [|discriminate].
      intros [= <-]. split.
      + pose proof (py_min_le_r ((z - price p) / price p * 10) 3). lra.
      + intros Z. split.
        * assert (-10 <= (z - price p) / price p * 10).
          { assert (-1 <= (z - price p) / price p).
            { apply Qle_shift_div_l; [exact Pos|]. lra. }
            lra. }
          pose proof (py_min_glb ((z - price p) / price p * 10) 3 (-10)). lra.
        * intros G.
          assert (0 <= (z - price p) / price p * 10).
          { apply Qmult_le_0_compat; [|discriminate].
            apply Qle_shift_div_l; [exact Pos|]. lra. }
          pose proof (py_min_glb ((z - price p) / price p * 10) 3 0). lra.
    - intros [= <-]. split; [lra|]. intros _. split; [lra|intros _; lra]. }
  destruct (if Qlt_le_dec 0 (price p)
            then (let* z := App.number (zestimate p) in
                  Py.Ok (c + Py.min ((z - price p) / price p * 10) 3))
            else Py.Ok c) as [a|e]; [|discriminate].
  cbn [Py.bind]. destruct (App a eq_refl) as [A3 A0]. clear App.
  (* the age term *)
  set (aged := match year_built p with
               | Some year =>
                   if Py.truthy_int (Some year)
                   then a + 2 * (1 - Py.min (inject_Z (2023 - year) / 100) 1)
                   else a
               | None => a
               end).
  assert (Age : a <= aged
                /\ (match year_built p with
                    | Some year => (year <= 2023)%Z
                    | None => True
                    end -> aged <= a + 2)).
  { subst aged. destruct (year_built p) as [year|]; [|split; [lra|intros _; lra]].
    destruct (Py.truthy_int (Some year)); [|split; [lra|intros _; lra]].
    pose proof (py_min_le_r (inject_Z (2023 - year) / 100) 1) as M1.
    split; [lra|]. intros Y.
    assert (0 <= inject_Z (2023 - year) / 100).
    { apply Qle_shift_div_l; [reflexivity|].
      change (0 * 100) with (inject_Z 0). rewrite <- Zle_Qle. lia. }
    pose proof (py_min_glb (inject_Z (2023 - year) / 100) 1 0). lra. }
  destruct Age as [Al Au].
  set (final := match monthly_hoa p with
                | Some hoa =>
                    if negb (Py.truthy hoa)
                       || (if Qlt_le_dec hoa 200 then true else false)
                    then aged + 1 else aged
                | None => aged + 1
                end).
  assert (Hoa : aged <= final <= aged + 1).
  { subst final. destruct (monthly_hoa p) as [hoa|]; [|split; lra].
    destruct (negb (Py.truthy hoa) || (if Qlt_le_dec hoa 200 then true else false));
      split; lra. }
  intros [= <-]. destruct Hoa as [Hl Hu]. split.
  - intros Y. specialize (Au Y). lra.
  - intros R Z. specialize (C0 R). destruct (A0 Z) as [A10 Ag].
    split; [lra|]. intros G. specialize (Ag G). lra.
Qed.

Lemma calculate_investment_score_range_witness :
  (133500000000000 # 25000000000000) <= 10
  /\ -10 <= (133500000000000 # 25000000000000).
Proof.
  destruct (calculate_investment_score_range scenario
              (133500000000000 # 25000000000000) eq_refl) as [U L].
  split.
  - apply U. cbn. lia.
  - assert (R : 0 <= 2500) by discriminate.
    assert (Z : 0 <= 520000) by discriminate.
    exact (proj1 (L R Z)).
Defined.

(** ** Addresses and property types *)

Lemma join_nonempty (sep : string) (parts : list string) :
  parts <> [] -> Forall (fun s => s <> ""%string) parts ->
  PyStr.join sep parts <> ""%string.
Proof.
  destruct parts as [|s rest]; [contradiction|].
  intros _ F. apply Forall_cons in F as [Hs _].
  destruct s as [|a s']; [contradiction|].
  destruct rest; cbn; discriminate.
Qed.

Section Addresses.
Context `{PyStr.Methods}.

Lemma append_part_nonempty (parts : list string) (component : option string)
    (placeholder : string) :
  Forall (fun s => s <> ""%string) parts ->
  Forall (fun s => s <> ""%string)
    (AppDisplay.append_part parts component placeholder).
Proof.
  intros F. unfold AppDisplay.append_part.
  destruct component as [s|]; [|exact F].
  cbn [PyStr.truthy_str]. destruct (String.eqb s "") eqn:E; [exact F|].
  cbn [negb andb].
  destruct (negb (String.eqb (PyStr.strip s) placeholder)); [|exact F].
  apply Forall_app. split; [exact F|].
  apply Forall_singleton. intros ->. discriminate.
Qed.

(** A placeholder that the stripping leaves alone is dropped like a
    missing component. *)
Lemma append_part_placeholder (parts : list string) (component : option string)
    (placeholder : string) :
  PyStr.strip placeholder = placeholder ->
  AppDisplay.append_part parts (Some (default placeholder component)) placeholder
  = AppDisplay.append_part parts component placeholder.
Proof.
  intros S. destruct component as [s|]; [reflexivity|].
  cbn. rewrite S, String.eqb_refl.
  destruct (negb (String.eqb placeholder "")); reflexivity.
Qed.

End Addresses.

(** X8: the formatted address is never the empty string, and it is the
    placeholder "Address Not Available" whenever every component is missing
    or empty. *)
Theorem safe_format_address_never_empty (methods : PyStr.Methods)
    (address city state zipcode : option string) :
  AppDisplay.safe_format_address address city state zipcode <> ""%string
  /\ (PyStr.truthy_str address = false -> PyStr.truthy_str city = false ->
      PyStr.truthy_str state = false -> PyStr.truthy_str zipcode = false ->
      AppDisplay.safe_format_address address city state zipcode
      = "Address Not Available"%string).
Proof.
  split.
  - unfold AppDisplay.safe_format_address.
    pose proof (append_part_nonempty
                  (AppDisplay.append_part
                     (AppDisplay.append_part
                        (AppDisplay.append_part [] address "Address Not Available")
                        city "City Not Available") state "NA")
                  zipcode "00000") as F.
    destruct (AppDisplay.append_part _ zipcode "00000") as [|s rest] eqn:E.
    + discriminate.
    + apply join_nonempty; [discriminate|].
      apply F. repeat apply append_part_nonempty. constructor.
  - intros A C S Z. unfold AppDisplay.safe_format_address, AppDisplay.append_part.
    destruct address, city, state, zipcode; cbn in *;
      rewrite ?A, ?C, ?S, ?Z; reflexivity.
Qed.

Lemma safe_format_address_never_empty_witness :
  AppDisplay.safe_format_address (H := PyStr.ascii_methods)
    None (Some ""%string) None None = "Address Not Available"%string.
Proof.
  apply (proj2 (safe_format_address_never_empty PyStr.ascii_methods
                  None (Some ""%string) None None));
    reflexivity.
Defined.

(** X9: the placeholders that [create_db] writes into missing address
    cells are invisible to the formatter: a filled row is formatted like
    the row with its missing cells, and a row without any address cell
    gives "Address Not Available". *)
Theorem fill_address_then_format (methods : PyStr.Methods)
    (row : CreateDbColumns.AddressCells) :
  PyStr.strip "Address Not Available" = "Address Not Available"%string ->
  PyStr.strip "City Not Available" = "City Not Available"%string ->
  PyStr.strip "NA" = "NA"%string ->
  PyStr.strip "00000" = "00000"%string ->
  let filled := CreateDbColumns.fill_address row in
  AppDisplay.safe_format_address
    (CreateDbColumns.streetAddress filled) (CreateDbColumns.cell_city filled)
    (CreateDbColumns.cell_state filled) (CreateDbColumns.cell_zipcode filled)
  = AppDisplay.safe_format_address
      (CreateDbColumns.streetAddress row) (CreateDbColumns.cell_city row)
      (CreateDbColumns.cell_state row) (CreateDbColumns.cell_zipcode row)
  /\ (row = CreateDbColumns.mkAddressCells None None None None ->
      AppDisplay.safe_format_address
        (CreateDbColumns.streetAddress filled) (CreateDbColumns.cell_city filled)
        (CreateDbColumns.cell_state filled) (CreateDbColumns.cell_zipcode filled)
      = "Address Not Available"%string).
Proof.
  intros Sa Sc Ss Sz. cbv zeta.
  assert (E : AppDisplay.safe_format_address
                (CreateDbColumns.streetAddress (CreateDbColumns.fill_address row))
                (CreateDbColumns.cell_city (CreateDbColumns.fill_address row))
                (CreateDbColumns.cell_state (CreateDbColumns.fill_address row))
                (CreateDbColumns.cell_zipcode (CreateDbColumns.fill_address row))
              = AppDisplay.safe_format_address
                  (CreateDbColumns.streetAddress row) (CreateDbColumns.cell_city row)
                  (CreateDbColumns.cell_state row) (CreateDbColumns.cell_zipcode row)).
  { unfold AppDisplay.safe_format_address, CreateDbColumns.fill_address.
    cbn [CreateDbColumns.streetAddress CreateDbColumns.cell_city
         CreateDbColumns.cell_state CreateDbColumns.cell_zipcode].
    rewrite !append_part_placeholder by assumption. reflexivity. }
  split; [exact E|].
  intros ->. rewrite E. reflexivity.
Qed.

Lemma fill_address_then_format_witness :
  AppDisplay.safe_format_address (H := PyStr.ascii_methods)
    (Some "1 Main St"%string) (Some "City Not Available"%string)
    (Some "CA"%string) (Some "00000"%string)
  = "1 Main St CA"%string.
Proof.
  destruct (fill_address_then_format PyStr.ascii_methods partial_address
              eq_refl eq_refl eq_refl eq_refl) as [E _].
  cbn in E. rewrite E. reflexivity.
Defined.

Lemma standardized_type_cases (methods : PyStr.Methods) (cell : option string) :
  CreateDbColumns.standardize_property_type cell = "SINGLE FAMILY"%string
  \/ CreateDbColumns.standardize_property_type cell = "CONDO"%string
  \/ CreateDbColumns.standardize_property_type cell = "TOWNHOUSE"%string.
Proof.
  unfold CreateDbColumns.standardize_property_type.
  destruct cell as [s|]; cbn -[CreateDbColumns.property_type_mapping];
    [|left; reflexivity].
  destruct (CreateDbColumns.property_type_mapping !! PyStr.upper s) as [t|] eqn:L;
    cbn; [|left; reflexivity].
  apply (elem_of_list_to_map_2 (M := gmap string)) in L.
  repeat (apply elem_of_cons in L as [L|L];
          [injection L as _ ->; auto|]).
  apply elem_of_nil in L. contradiction.
Qed.

(** X10: whatever the cell holds, the standardised property type is one of
    SINGLE FAMILY, CONDO and TOWNHOUSE (the types the property service
    allows), a missing or unknown type becoming SINGLE FAMILY; and
    standardising twice changes nothing more. *)
Theorem standardize_property_type_closed (methods : PyStr.Methods)
    (cell : option string) :
  CreateDbColumns.standardize_property_type cell ∈ PropertyService.allowed_types
  /\ CreateDbColumns.standardize_property_type None = "SINGLE FAMILY"%string
  /\ (forall s, CreateDbColumns.property_type_mapping !! PyStr.upper s = None ->
      CreateDbColumns.standardize_property_type (Some s) = "SINGLE FAMILY"%string)
  /\ ((forall t, t ∈ PropertyService.allowed_types -> PyStr.upper t = t) ->
      CreateDbColumns.standardize_property_type
        (Some (CreateDbColumns.standardize_property_type cell))
      = CreateDbColumns.standardize_property_type cell).
Proof.
  split; [|split; [reflexivity|split]].
  - unfold PropertyService.allowed_types.
    destruct (standardized_type_cases methods cell) as [-> | [-> | ->]];
      set_solver.
  - intros s L. unfold CreateDbColumns.standardize_property_type.
    cbn -[CreateDbColumns.property_type_mapping]. rewrite L. reflexivity.
  - intros U.
    assert (Fix : forall t, t ∈ PropertyService.allowed_types ->
              CreateDbColumns.standardize_property_type (Some t) = t).
    { intros t T. unfold CreateDbColumns.standardize_property_type.
      cbn -[CreateDbColumns.property_type_mapping].
      rewrite (U t T). unfold PropertyService.allowed_types in T.
      repeat (apply elem_of_cons in T as [->|T]; [reflexivity|]).
      apply elem_of_nil in T. contradiction. }
    apply Fix. unfold PropertyService.allowed_types.
    destruct (standardized_type_cases methods cell) as [-> | [-> | ->]];
      set_solver.
Qed.

Lemma standardize_property_type_closed_witness :
  CreateDbColumns.standardize_property_type (H := PyStr.ascii_methods)
    (Some (CreateDbColumns.standardize_property_type (H := PyStr.ascii_methods)
             (Some "Town_house"%string)))
  = CreateDbColumns.standardize_property_type (H := PyStr.ascii_methods)
      (Some "Town_house"%string)
  /\ CreateDbColumns.standardize_property_type (H := PyStr.ascii_methods)
       (Some "Land"%string) = "SINGLE FAMILY"%string.
Proof.
  split.
  - apply (proj2 (proj2 (proj2 (standardize_property_type_closed
             PyStr.ascii_methods (Some "Town_house"%string))))).
    intros t T. unfold PropertyService.allowed_types in T.
    repeat (apply elem_of_cons in T as [->|T]; [reflexivity|]).
    apply elem_of_nil in T. contradiction.
  - apply (proj1 (proj2 (proj2 (standardize_property_type_closed
             PyStr.ascii_methods None)))).
    reflexivity.
Defined.

(** X11: no type that [create_db] writes is a key of the scorer's vacancy
    table, so for every listing with a stored type the vacancy factor is the
    default 5: its list of risk factors ends with 5 and 6, after at most one
    price factor, and with a non-zero zestimate and price its risk score is
    (21 - 100 * gap) / 3, gap being |zestimate - price| / price. *)
Theorem vacancy_risk_of_database_types (methods : PyStr.Methods)
    (cell : option string) (p : Property) :
  property_type p = CreateDbColumns.standardize_property_type cell ->
  ScoringService.vacancy_risk_table !! property_type p = None
  /\ ScoringService.vacancy_risk p = 5
  /\ (exists price_factors,
        ScoringService.risk_factors p = price_factors ++ [5; 6]
        /\ (length price_factors <= 1)%nat)
  /\ (forall z, zestimate p = Some z -> ~ z == 0 -> ~ price p == 0 ->
      ScoringService.calculate_risk_score p
      == (21 - 100 * relative_gap p z) / 3).
Proof.
  intros E.
  assert (L : ScoringService.vacancy_risk_table !! property_type p = None).
  { rewrite E.
    destruct (standardized_type_cases methods cell) as [-> | [-> | ->]];
      reflexivity. }
  assert (V : ScoringService.vacancy_risk p = 5).
  { unfold ScoringService.vacancy_risk. rewrite L. reflexivity. }
  split; [exact L|]. split; [exact V|]. split.
  - unfold ScoringService.risk_factors. rewrite V.
    destruct (zestimate p) as [z|]; [|exists []; split; [reflexivity|cbn; lia]].
    destruct (Py.truthy z && Py.truthy (price p));
      [|exists []; split; [reflexivity|cbn; lia]].
    eexists [_]. split; [reflexivity|cbn; lia].
  - intros z Ez Hz Hp.
    rewrite (calculate_risk_score_with_zestimate p z Ez Hz Hp), V.
    unfold Qdiv. change (/ 3) with (1 # 3). ring.
Qed.

Lemma vacancy_risk_of_database_types_witness :
  ScoringService.vacancy_risk database_listing = 5
  /\ ScoringService.calculate_risk_score scenario
     == (21 - 100 * relative_gap scenario 520000) / 3.
Proof.
  split.
  - exact (proj1 (proj2 (vacancy_risk_of_database_types PyStr.ascii_methods
                           (Some "single-family"%string) database_listing
                           eq_refl))).
  - apply (proj2 (proj2 (proj2 (vacancy_risk_of_database_types
             PyStr.ascii_methods (Some "single-family"%string) scenario
             eq_refl))) 520000);
      [reflexivity | discriminate | discriminate].
Defined.

(** ** The pre-filter of the opportunities table *)

Lemma within_fifty_percent_positive (p : Property) :
  0 < price p ->
  (PropertyHandlers.within_fifty_percent p = true
   <-> ~ fair_price p == 0
       /\ 0.5 * price p <= fair_price p <= 1.5 * price p).
Proof.
  intros Pos. unfold PropertyHandlers.within_fifty_percent.
  assert (Tp : Py.truthy (price p) = true) by (apply truthy_true; lra).
  rewrite Tp. cbn [negb]. rewrite orb_false_r.
  set (f := fair_price p) in *. set (c := price p) in *.
  assert (D : (f - c) / c * c == f - c) by (field; lra).
  destruct (Py.truthy f) eqn:Tf; cbn [negb].
  - apply truthy_true in Tf. rewrite Qle_bool_iff. unfold Py.abs.
    rewrite Qabs_Qle_condition. split.
    + intros [L U]. split; [exact Tf|].
      assert (L' : -(1 # 2) <= (f - c) / c) by lra.
      assert (U' : (f - c) / c <= 1 # 2) by lra.
      apply (Qmult_le_compat_r _ _ c) in L'; [|lra].
      apply (Qmult_le_compat_r _ _ c) in U'; [|lra].
      rewrite D in L', U'. split; lra.
    + intros [_ [L U]].
      assert (L' : -(1 # 2) <= (f - c) / c).
      { apply Qle_shift_div_l; [exact Pos|]. lra. }
      assert (U' : (f - c) / c <= 1 # 2).
      { apply Qle_shift_div_r; [exact Pos|]. lra. }
      split; lra.
  - apply truthy_false in Tf. split; [discriminate|].
    intros [N _]. contradiction.
Qed.

Lemma zip_with_scores (properties : list Property) (p : Property)
    (s : InvestmentScore) :
  (p, s) ∈ zip properties (ScoringService.score_properties properties)
  <-> p ∈ properties /\ s = ScoringService.score_property p.
Proof.
  unfold ScoringService.score_properties.
  induction properties as [|q qs IH]; cbn.
  - split; [intros E; apply elem_of_nil in E; contradiction|].
    intros [E _]. apply elem_of_nil in E. contradiction.
  - rewrite elem_of_cons, IH, elem_of_cons. split.
    + intros [[= -> ->] | [E ->]]; auto.
    + intros [[-> | E] ->]; auto.
Qed.

(** X12: the opportunities table keeps exactly the listings of the batch
    that pass the 50 percent test, each with its own score; for a positive
    price these are the listings whose fair price is non-zero and lies
    within [0.5 * price, 1.5 * price], and a listing whose price or fair
    price is zero is never kept. *)
Theorem filtered_properties_and_scores_spec (properties : list Property) :
  (forall (p : Property) (s : InvestmentScore),
     (p, s) ∈ PropertyHandlers.filtered_properties_and_scores properties
                (ScoringService.score_properties properties)
     <-> p ∈ properties /\ s = ScoringService.score_property p
         /\ PropertyHandlers.within_fifty_percent p = true)
  /\ (forall p : Property, 0 < price p ->
        (PropertyHandlers.within_fifty_percent p = true
         <-> ~ fair_price p == 0
             /\ 0.5 * price p <= fair_price p <= 1.5 * price p))
  /\ (forall p : Property, price p == 0 \/ fair_price p == 0 ->
        PropertyHandlers.within_fifty_percent p = false).
Proof.
  split; [|split].
  - intros p s. unfold PropertyHandlers.filtered_properties_and_scores.
    rewrite list_elem_of_In, filter_In, <- list_elem_of_In, zip_with_scores.
    cbn [fst]. tauto.
  - exact within_fifty_percent_positive.
  - intros p [Z|Z]; apply truthy_false in Z;
      unfold PropertyHandlers.within_fifty_percent; rewrite Z;
      [rewrite orb_true_r|]; reflexivity.
Qed.

Lemma filtered_properties_and_scores_spec_witness :
  PropertyHandlers.within_fifty_percent averaged_listing = true.
Proof.
  apply (proj1 (proj2 (filtered_properties_and_scores_spec []))
           averaged_listing);
    [reflexivity|].
  split; [discriminate|]. split; discriminate.
Defined.

(** X13: a listing that carries the fair price [create_db] computed from a
    positive price passes the 50 percent test exactly when its zestimate
    lies between 0 and twice the price, and always when it has no
    zestimate. *)
Theorem stored_fair_price_through_filter (row : CreateDb.Row) (p : Property) :
  price p = CreateDb.row_price row ->
  fair_price p = CreateDb.calculate_fair_price row ->
  0 < price p ->
  match CreateDb.row_zestimate row with
  | Some z =>
      PropertyHandlers.within_fifty_percent p = true <-> 0 <= z <= 2 * price p
  | None => PropertyHandlers.within_fifty_percent p = true
  end.
Proof.
  intros Ep Ef Pos.
  pose proof (within_fifty_percent_positive p Pos) as W.
  destruct row as [c [z|]]; unfold CreateDb.calculate_fair_price in Ef;
    cbn in *; rewrite W, Ef, Ep; rewrite Ep in Pos.
  - unfold Qdiv. change (/ 2) with (1 # 2). split.
    + intros [_ [L U]]. split; lra.
    + intros [L U]. split; [|split; lra].
      intros Z. lra.
  - split; [lra|]. split; lra.
Qed.

Lemma stored_fair_price_through_filter_witness :
  (PropertyHandlers.within_fifty_percent (stored_listing plain_row) = true
   <-> 0 <= 110 <= 2 * price (stored_listing plain_row))
  /\ PropertyHandlers.within_fifty_percent (stored_listing hot_market_row)
     = false.
Proof.
  split.
  - apply (stored_fair_price_through_filter plain_row (stored_listing plain_row));
      reflexivity.
  - pose proof (stored_fair_price_through_filter hot_market_row
                  (stored_listing hot_market_row) eq_refl eq_refl
                  ltac:(reflexivity)) as [K _].
    destruct (PropertyHandlers.within_fifty_percent
                (stored_listing hot_market_row)); [|reflexivity].
    destruct (K eq_refl) as [_ U]. vm_compute in U. congruence.
Defined.

(** ** The queries of the property service *)

Lemma count_placeholders_app (a b : string) :
  PropertyService.count_placeholders (a +:+ b)
  = (PropertyService.count_placeholders a + PropertyService.count_placeholders b)%nat.
Proof.
  induction a as [|c a IH]; [reflexivity|].
  simpl. rewrite IH. lia.
Qed.

Lemma count_placeholders_join (parts : list string) :
  Forall (fun s => s = "?"%string) parts ->
  PropertyService.count_placeholders (PyStr.join "," parts) = length parts.
Proof.
  induction 1 as [|s rest -> _ IH]; [reflexivity|].
  destruct rest as [|t rest']; [reflexivity|].
  change (PyStr.join "," ("?"%string :: t :: rest'))
    with ("?" +:+ "," +:+ PyStr.join "," (t :: rest')).
  rewrite !count_placeholders_app, IH. reflexivity.
Qed.

Lemma count_placeholders_repeated (n : nat) :
  PropertyService.count_placeholders (PropertyService.placeholders n) = n.
Proof.
  unfold PropertyService.placeholders.
  assert (F : Forall (fun s => s = "?"%string) (PyStr.repeat_str "?" n)
              /\ length (PyStr.repeat_str "?" n) = n).
  { induction n as [|n [IF IL]]; cbn; [split; [constructor|reflexivity]|].
    split; [constructor; [reflexivity|exact IF] | rewrite IL; reflexivity]. }
  destruct F as [F L]. rewrite (count_placeholders_join _ F). exact L.
Qed.

Lemma count_placeholders_digits (x : N) (s : string) :
  PropertyService.count_placeholders (pretty_N_go x s)
  = PropertyService.count_placeholders s.
Proof.
  revert s. induction (N.lt_wf_0 x) as [x _ IH]. intros s.
  destruct (N.eq_dec x 0%N) as [->|Nz]; [reflexivity|].
  rewrite pretty_N_go_step by lia.
  rewrite IH by (apply N.div_lt; lia).
  assert (D : Ascii.eqb (pretty_N_char (x `mod` 10)) "?" = false).
  { unfold pretty_N_char. repeat case_match; reflexivity. }
  simpl. rewrite D. reflexivity.
Qed.

Lemma count_placeholders_pretty (n : Z) :
  PropertyService.count_placeholders (pretty n) = 0%nat.
Proof.
  assert (P : forall x : positive,
            PropertyService.count_placeholders (pretty x) = 0%nat).
  { intros x. unfold pretty, pretty_positive, pretty, pretty_N.
    destruct (decide (N.pos x = 0%N)); [reflexivity|].
    apply count_placeholders_digits. }
  destruct n as [|x|x]; unfold pretty, pretty_Z; [reflexivity|apply P|].
  rewrite count_placeholders_app, (P x). reflexivity.
Qed.

(** One step of a query builder keeps placeholders and parameters in
    balance. *)
Ltac balance_step :=
  match goal with
  | |- context [match ?X with (_, _) => _ end] =>
      let B := fresh "B" in
      assert (B : PropertyService.count_placeholders (fst X) = length (snd X));
      [ repeat case_match; cbn [fst snd];
        rewrite ?count_placeholders_app, ?length_app, ?length_fmap,
          ?count_placeholders_repeated;
        simpl; lia
      | destruct X as [? ?]; cbn [fst snd] in B ]
  end.

(** X14: in the query that [search_properties] builds, the number of [?]
    placeholders is the number of parameters, whatever the filters and the
    limit. *)
Theorem search_properties_query_balanced (filters : PropertyService.Filters)
    (limit : Z) :
  PropertyService.count_placeholders
    (fst (PropertyService.search_properties_query filters limit))
  = length (snd (PropertyService.search_properties_query filters limit)).
Proof.
  unfold PropertyService.search_properties_query.
  assert (B0 : PropertyService.count_placeholders
                 PropertyService.BASE_PROPERTY_QUERY = 0%nat) by reflexivity.
  revert B0. generalize PropertyService.BASE_PROPERTY_QUERY as query.
  intros query B0.
  do 5 balance_step.
  cbn [fst snd].
  rewrite !count_placeholders_app, count_placeholders_pretty. simpl. lia.
Qed.

Section Opportunities.
Context `{PyStr.Methods}.

Lemma add_filters_to_query_balanced (query : string)
    (params : list PropertyService.param) (filters : PropertyService.Filters) :
  PropertyService.count_placeholders query = length params ->
  PropertyService.count_placeholders
    (fst (PropertyService._add_filters_to_query query params filters))
  = length (snd (PropertyService._add_filters_to_query query params filters)).
Proof.
  intros B0. unfold PropertyService._add_filters_to_query.
  do 2 balance_step.
  destruct (PropertyService.property_types filters) as [[|t ts]|];
    [exact B1 | | exact B1].
  destruct (List.filter _ (t :: ts)) as [|v vs]; [exact B1|].
  cbn [fst snd].
  rewrite !count_placeholders_app, length_app, length_fmap.
  rewrite count_placeholders_join by (apply Forall_fmap, Forall_true; reflexivity).
  rewrite length_fmap. simpl. lia.
Qed.

Lemma add_filters_to_query_strings (query : string)
    (params : list PropertyService.param) (filters : PropertyService.Filters)
    (s : string) :
  PropertyService.PStr s
    ∈ snd (PropertyService._add_filters_to_query query params filters) ->
  PropertyService.PStr s ∈ params \/ s ∈ PropertyService.allowed_types.
Proof.
  unfold PropertyService._add_filters_to_query.
  set (step1 := match PropertyService.price_min filters,
                      PropertyService.price_max filters with
                | Some lo, Some hi => _
                | _, _ => _
                end).
  assert (S1 : PropertyService.PStr s ∈ snd step1 ->
               PropertyService.PStr s ∈ params).
  { subst step1. repeat case_match; cbn [snd]; try tauto.
    rewrite elem_of_app. intros [E|E]; [exact E|].
    repeat (apply elem_of_cons in E as [E|E]; [discriminate|]).
    apply elem_of_nil in E. contradiction. }
  destruct step1 as [q1 p1]. cbn [snd] in S1.
  set (step2 := match PropertyService.sqft_min filters,
                      PropertyService.sqft_max filters with
                | Some lo, Some hi => _
                | _, _ => _
                end).
  assert (S2 : PropertyService.PStr s ∈ snd step2 ->
               PropertyService.PStr s ∈ p1).
  { subst step2. repeat case_match; cbn [snd]; try tauto.
    rewrite elem_of_app. intros [E|E]; [exact E|].
    repeat (apply elem_of_cons in E as [E|E]; [discriminate|]).
    apply elem_of_nil in E. contradiction. }
  destruct step2 as [q2 p2]. cbn [snd] in S2.
  destruct (PropertyService.property_types filters) as [[|t ts]|];
    cbn [snd]; [tauto | | tauto].
  destruct (List.filter _ (t :: ts)) as [|v vs] eqn:F; cbn [snd]; [tauto|].
  rewrite elem_of_app. intros [E|E]; [tauto|]. right.
  apply list_elem_of_fmap in E as (pt & [= ->] & E).
  rewrite <- F in E. apply list_elem_of_In, filter_In in E as [_ E].
  apply bool_decide_eq_true in E. exact E.
Qed.

Lemma add_sorting_to_query_no_placeholder (query sort_by : string) :
  PropertyService.count_placeholders
    (PropertyService._add_sorting_to_query query sort_by false)
  = PropertyService.count_placeholders query.
Proof.
  unfold PropertyService._add_sorting_to_query.
  rewrite !count_placeholders_app.
  match goal with
  | |- context [default ?d (?m !! sort_by)] =>
      destruct (m !! sort_by) as [c|] eqn:L; cbn [default]
  end.
  - apply (elem_of_list_to_map_2 (M := gmap string)) in L.
    repeat (apply elem_of_cons in L as [L|L];
            [injection L as _ ->; simpl; lia|]).
    apply elem_of_nil in L. contradiction.
  - simpl. lia.
Qed.

End Opportunities.

(** X15: in the query that [get_investment_opportunities] builds, the
    number of [?] placeholders is the number of parameters, whatever the
    sort key, the limit and the filters. *)
Theorem get_investment_opportunities_query_balanced (methods : PyStr.Methods)
    (sort_by : string) (limit : option Z)
    (filters : option PropertyService.Filters) :
  PropertyService.count_placeholders
    (fst (PropertyService.get_investment_opportunities_query sort_by limit filters))
  = length
      (snd (PropertyService.get_investment_opportunities_query sort_by limit filters)).
Proof.
  unfold PropertyService.get_investment_opportunities_query.
  assert (B : PropertyService.count_placeholders
                (fst (match filters with
                      | Some f =>
                          PropertyService._add_filters_to_query
                            PropertyService.BASE_PROPERTY_QUERY [] f
                      | None => (PropertyService.BASE_PROPERTY_QUERY, [])
                      end))
              = length
                  (snd (match filters with
                        | Some f =>
                            PropertyService._add_filters_to_query
                              PropertyService.BASE_PROPERTY_QUERY [] f
                        | None => (PropertyService.BASE_PROPERTY_QUERY, [])
                        end))).
  { destruct filters as [f|]; [|reflexivity].
    apply add_filters_to_query_balanced. reflexivity. }
  destruct (match filters with
            | Some f => _
            | None => _
            end) as [query params].
  cbn [fst snd] in *.
  rewrite !count_placeholders_app, count_placeholders_pretty,
    add_sorting_to_query_no_placeholder, B.
  simpl. lia.
Qed.

(** X16: every string that [get_investment_opportunities] binds to a
    placeholder is one of SINGLE FAMILY, CONDO and TOWNHOUSE: requested
    types outside this list are left out, and no other text of the filters
    is bound. *)
Theorem get_investment_opportunities_query_whitelist (methods : PyStr.Methods)
    (sort_by : string) (limit : option Z)
    (filters : option PropertyService.Filters) (s : string) :
  PropertyService.PStr s
    ∈ snd (PropertyService.get_investment_opportunities_query sort_by limit filters)
  -> s ∈ PropertyService.allowed_types.
Proof.
  unfold PropertyService.get_investment_opportunities_query.
  destruct filters as [f|].
  - pose proof (add_filters_to_query_strings
                  PropertyService.BASE_PROPERTY_QUERY [] f s) as S.
    destruct (PropertyService._add_filters_to_query _ [] f) as [query params].
    cbn [snd] in *. intros E. destruct (S E) as [N|A]; [|exact A].
    apply elem_of_nil in N. contradiction.
  - cbn. intros E. apply elem_of_nil in E. contradiction.
Qed.

Lemma get_investment_opportunities_query_whitelist_witness :
  "CONDO"%string ∈ PropertyService.allowed_types.
Proof.
  apply (get_investment_opportunities_query_whitelist PyStr.ascii_methods
           "score" (Some 50%Z) (Some all_filters) "CONDO").
  vm_compute. set_solver.
Defined.

(** X17: the query of [get_investment_opportunities] reads only the price
    range, the area range, the property types and [show_max_results] of the
    filters: two filter sets that agree on these give the same query and
    parameters, so the location and the HOA limit have no effect; and its
    row limit is 2000 under [show_max_results], otherwise the given limit,
    50 standing in for a missing or zero one. *)
Theorem get_investment_opportunities_query_inputs (methods : PyStr.Methods)
    (sort_by : string) (limit : option Z) (f f' : PropertyService.Filters) :
  opportunity_inputs f = opportunity_inputs f' ->
  PropertyService.get_investment_opportunities_query sort_by limit (Some f)
  = PropertyService.get_investment_opportunities_query sort_by limit (Some f')
  /\ PropertyService.actual_limit limit (Some f)
     = (if default false (PropertyService.show_max_results f) then 2000%Z
        else match limit with
             | Some 0%Z | None => 50%Z
             | Some n => n
             end)
  /\ PropertyService.actual_limit limit (Some f) <> 0%Z.
Proof.
  unfold opportunity_inputs. intros E.
  injection E as E1 E2 E3 E4 E5 E6.
  split; [|split].
  - unfold PropertyService.get_investment_opportunities_query,
      PropertyService.actual_limit, PropertyService._add_filters_to_query.
    rewrite E1, E2, E3, E4, E5, E6. reflexivity.
  - unfold PropertyService.actual_limit, PropertyService.limit_or_50.
    destruct (default false (PropertyService.show_max_results f));
      [reflexivity|].
    destruct limit as [[|n|n]|]; reflexivity.
  - unfold PropertyService.actual_limit, PropertyService.limit_or_50.
    destruct (default false (PropertyService.show_max_results f));
      [discriminate|].
    destruct limit as [[|n|n]|]; discriminate.
Qed.

Lemma get_investment_opportunities_query_inputs_witness :
  PropertyService.get_investment_opportunities_query (H := PyStr.ascii_methods)
    "score" (Some 0%Z) (Some all_filters)
  = PropertyService.get_investment_opportunities_query (H := PyStr.ascii_methods)
      "score" (Some 0%Z) (Some elsewhere).
Proof.
  apply (get_investment_opportunities_query_inputs PyStr.ascii_methods
           "score" (Some 0%Z) all_filters elsewhere).
  reflexivity.
Defined.

(** X18: in [search_properties] a price minimum of 0 switches the whole
    price range off, its maximum included, because the range is tested for
    truth; [get_investment_opportunities], which tests for [None], still
    binds both ends. *)
Theorem zero_price_minimum (methods : PyStr.Methods)
    (filters : PropertyService.Filters) (limit : Z) (lo hi : Q) :
  PropertyService.price_min filters = Some lo ->
  PropertyService.price_max filters = Some hi ->
  lo == 0 ->
  PropertyService.search_properties_query filters limit
  = PropertyService.search_properties_query (without_price_range filters) limit
  /\ exists rest,
       snd (PropertyService.get_investment_opportunities_query
              "score" (Some limit) (Some filters))
       = PropertyService.PNum lo :: PropertyService.PNum hi :: rest.
Proof.
  intros Emin Emax Z. split.
  - unfold PropertyService.search_properties_query. rewrite Emin, Emax.
    apply truthy_false in Z. rewrite Z. reflexivity.
  - unfold PropertyService.get_investment_opportunities_query,
      PropertyService._add_filters_to_query.
    rewrite Emin, Emax.
    destruct (PropertyService.sqft_min filters),
      (PropertyService.sqft_max filters),
      (PropertyService.property_types filters) as [[|t ts]|];
      try (destruct (List.filter _ (t :: ts)));
      cbn; eexists; reflexivity.
Qed.

Lemma zero_price_minimum_witness :
  PropertyService.search_properties_query zero_minimum 100
  = PropertyService.search_properties_query (without_price_range zero_minimum) 100
  /\ exists rest,
       snd (PropertyService.get_investment_opportunities_query
              (H := PyStr.ascii_methods) "score" (Some 100%Z) (Some zero_minimum))
       = PropertyService.PNum 0 :: PropertyService.PNum 2000000 :: rest.
Proof.
  apply (zero_price_minimum PyStr.ascii_methods zero_minimum 100 0 2000000);
    reflexivity.
Defined.

(** ** Validation of predictions and the choice of features *)

(** X19: [_validate_predictions] never raises and returns as many values as
    it was given; when the two arrays differ in length it returns the
    predictions unchanged, and otherwise every value paired with a
    non-negative price lies within [0.5 * price, 1.5 * price]. *)
Theorem validate_predictions_total (predictions actual_prices : list Q) :
  exists out,
    PredictionService._validate_predictions predictions actual_prices = Py.Ok out
    /\ length out = length predictions
    /\ (length predictions <> length actual_prices -> out = predictions)
    /\ (length predictions = length actual_prices ->
        forall (i : nat) (p : Q),
          actual_prices !! i = Some p -> 0 <= p ->
          exists f, out !! i = Some f /\ 0.5 * p <= f <= 1.5 * p).
Proof.
  destruct (decide (length predictions = length actual_prices)) as [E|N].
  - exists (Numpy.clip predictions (Numpy.scale actual_prices 0.5)
              (Numpy.scale actual_prices 1.5)).
    split; [apply validate_predictions_equal_length, E|].
    split; [apply clip_length; unfold Numpy.scale; rewrite length_fmap;
            symmetry; exact E|].
    split; [intros N; contradiction|].
    intros _ i p Ei Pos.
    assert (Ix : is_Some (predictions !! i)).
    { apply lookup_lt_is_Some. rewrite E. eapply lookup_lt_Some, Ei. }
    destruct Ix as [x Ex].
    exists (Numpy.clip1 x (p * 0.5) (p * 1.5)). split.
    + apply clip_lookup; [exact Ex | |]; apply scale_lookup, Ei.
    + pose proof (clip1_within x (p * 0.5) (p * 1.5)) as B.
      destruct B as [Bl Bu]; [lra|]. split; lra.
  - exists predictions.
    split.
    + unfold PredictionService._validate_predictions.
      destruct (decide (length predictions ≠ length actual_prices));
        [reflexivity|contradiction].
    + split; [reflexivity|]. split; [reflexivity|].
      intros E. contradiction.
Qed.

Lemma validate_predictions_total_witness :
  PredictionService._validate_predictions [1000; 20] [100] = Py.Ok [1000; 20]
  /\ PredictionService._validate_predictions [1000; 20] [100; 100]
     = Py.Ok [100 * 1.5; 100 * 0.5].
Proof.
  split.
  - destruct (validate_predictions_total [1000; 20] [100])
      as (out & E & _ & U & _).
    rewrite E, (U ltac:(discriminate)). reflexivity.
  - reflexivity.
Defined.

(** X20: the feature lists of [predict_fair_price] never hold [price],
    [fair_price], [id] or a name under [schools/]; every numeric feature is
    a column of one of the four numeric types and every categorical feature
    a column of type object or category.  A column named [property_id] is
    not in the removal list and stays a feature. *)
Theorem features_exclude_removed_columns (df : Pandas.DataFrame) (col : string) :
  (col ∈ PredictionService.numeric_features df ->
   (col ∉ PredictionService.columns_to_remove)
   /\ String.prefix "schools/" col = false
   /\ exists s, s ∈ Pandas.columns df /\ Pandas.name s = col
        /\ Pandas.dtype_of s
           ∈ [Pandas.int32; Pandas.float32; Pandas.int64; Pandas.float64])
  /\ (col ∈ PredictionService.categorical_features df ->
      (col ∉ PredictionService.columns_to_remove)
      /\ String.prefix "schools/" col = false
      /\ exists s, s ∈ Pandas.columns df /\ Pandas.name s = col
           /\ Pandas.dtype_of s ∈ [Pandas.object; Pandas.category])
  /\ PredictionService.keep_feature "property_id" = true.
Proof.
  assert (K : forall include,
            col ∈ List.filter PredictionService.keep_feature
                    (Pandas.select_dtypes include df) ->
            (col ∉ PredictionService.columns_to_remove)
            /\ String.prefix "schools/" col = false
            /\ exists s, s ∈ Pandas.columns df /\ Pandas.name s = col
                 /\ Pandas.dtype_of s ∈ include).
  { intros include E.
    apply list_elem_of_In, filter_In in E as [E Keep].
    unfold PredictionService.keep_feature in Keep.
    apply andb_true_iff in Keep as [R P].
    apply bool_decide_eq_true in R. apply negb_true_iff in P.
    split; [exact R|]. split; [exact P|].
    apply list_elem_of_In in E. unfold Pandas.select_dtypes in E.
    apply list_elem_of_fmap in E as (s & -> & E).
    apply list_elem_of_filter in E as [D E].
    exists s. split; [exact E|]. split; [reflexivity|exact D]. }
  split; [apply K|]. split; [apply K|reflexivity].
Qed.

Lemma features_exclude_removed_columns_witness :
  ("bedrooms"%string ∉ PredictionService.columns_to_remove)
  /\ String.prefix "schools/" "bedrooms" = false.
Proof.
  destruct (proj1 (features_exclude_removed_columns small_batch "bedrooms"))
    as (R & P & _).
  - vm_compute. set_solver.
  - split; [exact R|exact P].
Defined.
